(** * Inventory management system: products, ledger and JSON persistence

    A shallow embedding of [inventory_m-sys/main.py]: the [Product] class
    hierarchy ([Electronics], [Grocery], [Clothing]), the [Inventory] ledger
    built on an insertion-ordered dictionary, and the JSON codec behind
    [save_to_file] / [load_from_file].

    Modelling conventions.
    - A Python [dict] keyed by strings is an association list in insertion
      order; assignment to a present key keeps its position.
    - A method that mutates [self] and may raise is a computation in a
      state-and-exception monad: it returns the outcome together with the
      state of the object at that moment, so that a mutation performed before
      a [raise] stays visible.
    - [int] is [Z], [float] is a binary64 number ([PrimFloat.float]).  A price
      is an [int] or a [float]; arithmetic follows Python: an [int] meeting a
      [float] is converted first, with rounding to nearest even and
      [OverflowError] beyond the range of binary64.
    - The record attributes are typed: ids and names are text, stocks and
      warranty years are [int].  Python stores in an attribute whatever value
      it is given; statements about documents are made for records whose
      values have these types.
    - Text is a string of bytes.  On ASCII text [str.lower] and [strptime]
      are as modelled; statements that depend on them say so.
    - [datetime.now()] reads the clock; the reading is passed in as [now].
    - [strftime] is the one of CPython on glibc: the year is written without
      padding.
    - The text layer of [json.dump] / [json.load] is not modelled: a file
      holds the list of JSON objects that was dumped into it. *)

From Stdlib Require Import ZArith List String Ascii Bool Lia PrimFloat.
From Stdlib Require Import DecimalString Permutation.
From Stdlib Require FloatOps SpecFloat.
Import ListNotations.

Local Open Scope string_scope.
Local Open Scope Z_scope.

(* ================================================================== *)
(** ** Insertion-ordered dictionaries with string keys *)

Module PyDict.

Definition dict (V : Type) : Type := list (string * V).

Section Ops.
Context {V : Type}.

(** [{}] *)
Definition empty : dict V := [].

(** [d.get(k)] *)
Fixpoint get (k : string) (d : dict V) : option V :=
  match d with
  | [] => None
  | (k', v) :: r => if String.eqb k k' then Some v else get k r
  end.

(** [k in d] *)
Definition contains (k : string) (d : dict V) : bool :=
  match get k d with Some _ => true | None => false end.

(** [d[k] = v]: replaces in place when [k] is present, appends otherwise. *)
Fixpoint set (k : string) (v : V) (d : dict V) : dict V :=
  match d with
  | [] => [(k, v)]
  | (k', v') :: r =>
      if String.eqb k k' then (k', v) :: r else (k', v') :: set k v r
  end.

(** [del d[k]] (the caller has checked that [k] is present). *)
Fixpoint del (k : string) (d : dict V) : dict V :=
  match d with
  | [] => []
  | (k', v') :: r => if String.eqb k k' then r else (k', v') :: del k r
  end.

(** [for k in ks: del d[k]] *)
Definition del_all (ks : list string) (d : dict V) : dict V :=
  fold_left (fun d k => del k d) ks d.

(** [d.keys()], [d.values()], [d.items()] in insertion order. *)
Definition keys (d : dict V) : list string := map fst d.
Definition values (d : dict V) : list V := map snd d.
Definition items (d : dict V) : list (string * V) := d.

(** [d.update(e)] *)
Definition update (e d : dict V) : dict V :=
  fold_left (fun acc kv => set (fst kv) (snd kv) acc) e d.

(** Representation invariant of a dictionary: no key occurs twice. *)
Definition wf (d : dict V) : Prop := NoDup (keys d).
End Ops.

End PyDict.

(* ================================================================== *)
(** ** [datetime] values, [strptime] and [strftime] for ["%Y-%m-%d"] *)

Module DateTime.

Record datetime : Type := mk_datetime {
  year : Z; month : Z; day : Z;
  hour : Z; minute : Z; second : Z; microsecond : Z
}.

(** Lexicographic combination of two comparisons. *)
Definition lex (c1 c2 : comparison) : comparison :=
  match c1 with Eq => c2 | _ => c1 end.

(** Naive datetimes compare field by field, most significant first. *)
Definition compare (a b : datetime) : comparison :=
  lex (year a ?= year b)
  (lex (month a ?= month b)
  (lex (day a ?= day b)
  (lex (hour a ?= hour b)
  (lex (minute a ?= minute b)
  (lex (second a ?= second b)
       (microsecond a ?= microsecond b)))))).

(** [a > b] and [a < b] *)
Definition gt (a b : datetime) : bool :=
  match compare a b with Gt => true | _ => false end.
Definition lt (a b : datetime) : bool :=
  match compare a b with Lt => true | _ => false end.

Definition is_leap (y : Z) : bool :=
  (y mod 4 =? 0) && (negb (y mod 100 =? 0) || (y mod 400 =? 0)).

Definition days_in_month (y m : Z) : Z :=
  match m with
  | 1 => 31 | 2 => if is_leap y then 29 else 28 | 3 => 31 | 4 => 30
  | 5 => 31 | 6 => 30 | 7 => 31 | 8 => 31 | 9 => 30 | 10 => 31
  | 11 => 30 | 12 => 31
  | _ => 0
  end.

(** The dates a [datetime] can hold: [MINYEAR = 1], [MAXYEAR = 9999]. *)
Definition valid_date (y m d : Z) : bool :=
  (1 <=? y) && (y <=? 9999) && (1 <=? m) && (m <=? 12)
  && (1 <=? d) && (d <=? days_in_month y m).

(** A datetime at midnight of a valid calendar date: what
    [strptime(_, "%Y-%m-%d")] returns. *)
Definition is_midnight_date (t : datetime) : bool :=
  valid_date (year t) (month t) (day t)
  && (hour t =? 0) && (minute t =? 0) && (second t =? 0)
  && (microsecond t =? 0).

(** [t.date()] as a triple. *)
Definition date (t : datetime) : Z * Z * Z := (year t, month t, day t).

(** Decimal digits. *)
Definition digit_of_ascii (c : ascii) : option Z :=
  let n := Z.of_nat (nat_of_ascii c) in
  if (48 <=? n) && (n <=? 57) then Some (n - 48) else None.

Definition ascii_of_digit (d : Z) : ascii :=
  ascii_of_nat (Z.to_nat (48 + d)).

Definition is_dash (c : ascii) : bool := Ascii.eqb c "-"%char.

(** Four digits, zero padded. *)
Definition pad4 (n : Z) : string :=
  String (ascii_of_digit (n / 1000))
 (String (ascii_of_digit (n / 100 mod 10))
 (String (ascii_of_digit (n / 10 mod 10))
 (String (ascii_of_digit (n mod 10)) ""))).

(** [%m], [%d]: two digits, zero padded. *)
Definition pad2 (n : Z) : string :=
  String (ascii_of_digit (n / 10)) (String (ascii_of_digit (n mod 10)) "").

(** [%Y] as glibc writes it: the decimal digits of the year, without
    padding. *)
Definition year_text (y : Z) : string :=
  if y <? 10 then String (ascii_of_digit y) ""
  else if y <? 100 then pad2 y
  else if y <? 1000 then
    String (ascii_of_digit (y / 100)) (pad2 (y mod 100))
  else pad4 y.

(** [t.strftime("%Y-%m-%d")] *)
Definition strftime (t : datetime) : string :=
  year_text (year t) ++ "-" ++ pad2 (month t) ++ "-" ++ pad2 (day t).

(** [a.date() < b.date()]: comparison of the calendar dates alone. *)
Definition date_lt (a b : datetime) : bool :=
  match lex (year a ?= year b)
            (lex (month a ?= month b) (day a ?= day b)) with
  | Lt => true
  | _ => false
  end.

(** [%m] followed by the literal dash: [(1[0-2]|0[1-9]|[1-9])-]. *)
Definition parse_month (s : string) : option (Z * string) :=
  match s with
  | String m1 (String m2 tl) =>
      if is_dash m2 then
        match digit_of_ascii m1 with
        | Some a => if 1 <=? a then Some (a, tl) else None
        | None => None
        end
      else
        match digit_of_ascii m1, digit_of_ascii m2, tl with
        | Some a, Some b, String sep tl' =>
            if is_dash sep
               && (((a =? 1) && (b <=? 2)) || ((a =? 0) && (1 <=? b)))
            then Some (10 * a + b, tl')
            else None
        | _, _, _ => None
        end
  | _ => None
  end.

(** [%d] up to the end of the text:
    [(3[0-1]|[1-2]\d|0[1-9]|[1-9]| [1-9])], nothing may remain. *)
Definition parse_day (s : string) : option Z :=
  match s with
  | String d1 EmptyString =>
      match digit_of_ascii d1 with
      | Some a => if 1 <=? a then Some a else None
      | None => None
      end
  | String d1 (String d2 EmptyString) =>
      match digit_of_ascii d1, digit_of_ascii d2 with
      | Some a, Some b =>
          if ((a =? 3) && (b <=? 1))
             || ((1 <=? a) && (a <=? 2))
             || ((a =? 0) && (1 <=? b))
          then Some (10 * a + b) else None
      | None, Some b =>
          if Ascii.eqb d1 " "%char && (1 <=? b) then Some b else None
      | _, _ => None
      end
  | _ => None
  end.

(** [datetime.strptime(s, "%Y-%m-%d")]; [None] stands for its [ValueError]. *)
Definition strptime (s : string) : option datetime :=
  match s with
  | String y1 (String y2 (String y3 (String y4 (String sep rest)))) =>
      match digit_of_ascii y1, digit_of_ascii y2,
            digit_of_ascii y3, digit_of_ascii y4 with
      | Some a, Some b, Some c, Some d =>
          if is_dash sep then
            match parse_month rest with
            | Some (m, rest') =>
                match parse_day rest' with
                | Some dd =>
                    let y := 1000 * a + 100 * b + 10 * c + d in
                    if valid_date y m dd
                    then Some (mk_datetime y m dd 0 0 0 0)
                    else None
                | None => None
                end
            | None => None
            end
          else None
      | _, _, _, _ => None
      end
  | _ => None
  end.

End DateTime.

(* ================================================================== *)
(** ** JSON values, exceptions and the effect monad *)

(** The JSON values that occur in a saved inventory. *)
Inductive jvalue : Type :=
| JStr (s : string)
| JInt (z : Z)
| JFloat (f : float).

(** A JSON object, as [json.load] returns it: a [dict] with string keys. *)
Definition jobject : Type := PyDict.dict jvalue.

(** Python exceptions.  [ValueError_fmt t v] is [ValueError(f"{t}{v}")] for a
    value [v] whose text is not modelled. *)
Inductive exn : Type :=
| ValueError (msg : string)
| ValueError_fmt (template : string) (arg : jvalue)
| KeyError (key : string)
| TypeError (msg : string)
| OverflowError (msg : string).

(** Outcome of a call: a returned value or a raised exception. *)
Inductive res (A : Type) : Type :=
| Ret (a : A)
| Exc (e : exn).
Arguments Ret {A} a.
Arguments Exc {A} e.

Definition rbind {A B : Type} (m : res A) (k : A -> res B) : res B :=
  match m with Ret a => k a | Exc e => Exc e end.

(** A method of an object of type [S]: outcome and state of the object when
    the call ends, normally or by an exception. *)
Definition M (S A : Type) : Type := S -> res A * S.

Definition ret {S A : Type} (a : A) : M S A := fun s => (Ret a, s).
Definition raise {S A : Type} (e : exn) : M S A := fun s => (Exc e, s).
Definition bind {S A B : Type} (m : M S A) (k : A -> M S B) : M S B :=
  fun s => match m s with
           | (Ret a, s') => k a s'
           | (Exc e, s') => (Exc e, s')
           end.
Definition gets {S A : Type} (f : S -> A) : M S A := fun s => (Ret (f s), s).
Definition modify {S : Type} (f : S -> S) : M S unit := fun s => (Ret tt, f s).
Definition lift {S A : Type} (r : res A) : M S A := fun s => (r, s).

Declare Scope py_scope.
Delimit Scope py_scope with py.
Notation "x <- m ;; k" := (bind m (fun x => k))
  (at level 61, m at next level, right associativity) : py_scope.
Notation "m ;; k" := (bind m (fun _ => k))
  (at level 61, right associativity) : py_scope.
Notation "x <~ m ;; k" := (rbind m (fun x => k))
  (at level 61, m at next level, right associativity) : py_scope.
Local Open Scope py_scope.

(** [for x in l: body(x)] *)
Fixpoint for_each {S A : Type} (l : list A) (body : A -> M S unit) : M S unit :=
  match l with
  | [] => ret tt
  | x :: r => body x ;; for_each r body
  end.

(** The failure kinds the specification names, as the exceptions the code
    raises for them. *)
Definition DuplicateId (pid : string) : exn :=
  ValueError ("Product ID '" ++ pid ++ "' already exists.").
Definition NotFound (pid : string) : exn :=
  ValueError ("Product ID '" ++ pid ++ "' not found.").
Definition InsufficientStock : exn := ValueError "Not enough stock to sell.".
Definition ExpiredProduct : exn := ValueError "Cannot sell expired product.".

(* ================================================================== *)
(** ** Numbers *)

(** A Python number: an [int] or a [float]. *)
Inductive number : Type :=
| NInt (z : Z)
| NFloat (f : float).

(** [float(z)]: the nearest binary64 number, ties to even; [OverflowError]
    when it is beyond the largest one. *)
Definition float_of_int (z : Z) : res float :=
  match SpecFloat.binary_normalize FloatOps.prec FloatOps.emax z 0 false with
  | SpecFloat.S754_infinity _ =>
      Exc (OverflowError "int too large to convert to float")
  | x => Ret (FloatOps.SF2Prim x)
  end.

(** [a * b] and [a + b] *)
Definition py_mul (a b : number) : res number :=
  match a, b with
  | NInt x, NInt y => Ret (NInt (x * y))
  | NFloat f, NInt y =>
      match float_of_int y with
      | Ret g => Ret (NFloat (PrimFloat.mul f g))
      | Exc e => Exc e
      end
  | NInt x, NFloat g =>
      match float_of_int x with
      | Ret f => Ret (NFloat (PrimFloat.mul f g))
      | Exc e => Exc e
      end
  | NFloat f, NFloat g => Ret (NFloat (PrimFloat.mul f g))
  end.

Definition py_add (a b : number) : res number :=
  match a, b with
  | NInt x, NInt y => Ret (NInt (x + y))
  | NFloat f, NInt y =>
      match float_of_int y with
      | Ret g => Ret (NFloat (PrimFloat.add f g))
      | Exc e => Exc e
      end
  | NInt x, NFloat g =>
      match float_of_int x with
      | Ret f => Ret (NFloat (PrimFloat.add f g))
      | Exc e => Exc e
      end
  | NFloat f, NFloat g => Ret (NFloat (PrimFloat.add f g))
  end.

(** [sum(term(x) for x in l)], continued from the accumulator [acc]: each
    term is computed when its turn comes and added to the accumulator (the
    additions are the plain ones of CPython up to 3.11). *)
Fixpoint py_sum {A : Type} (term : A -> res number) (l : list A)
    (acc : number) : res number :=
  match l with
  | [] => Ret acc
  | x :: r =>
      match term x with
      | Ret v =>
          match py_add acc v with
          | Ret acc' => py_sum term r acc'
          | Exc e => Exc e
          end
      | Exc e => Exc e
      end
  end.

(* ================================================================== *)
(** ** The product classes *)

(** Attributes set by [Product.__init__]. *)
Record ProductBase : Type := mk_base {
  _product_id : string;
  _name : string;
  _price : number;
  _quantity_in_stock : Z
}.

(** An object of one of the three concrete subclasses of [Product]. *)
Inductive Product : Type :=
| Electronics (base : ProductBase) (brand : string) (warranty_years : Z)
| Grocery (base : ProductBase) (expiry_date : DateTime.datetime)
| Clothing (base : ProductBase) (size : string) (material : string).

Definition base_of (p : Product) : ProductBase :=
  match p with
  | Electronics b _ _ => b
  | Grocery b _ => b
  | Clothing b _ _ => b
  end.

Definition product_id (p : Product) : string := _product_id (base_of p).
Definition quantity_in_stock (p : Product) : Z := _quantity_in_stock (base_of p).

(** [self.__class__.__name__] *)
Definition class_name (p : Product) : string :=
  match p with
  | Electronics _ _ _ => "Electronics"
  | Grocery _ _ => "Grocery"
  | Clothing _ _ _ => "Clothing"
  end.

(** [self._quantity_in_stock = q] *)
Definition with_stock (b : ProductBase) (q : Z) : ProductBase :=
  mk_base (_product_id b) (_name b) (_price b) q.

(** The constructors.  Only [Grocery.__init__] can raise: it parses the
    expiry date. *)
Definition Electronics_init (product_id name : string) (price : number)
    (quantity_in_stock : Z) (brand : string) (warranty_years : Z) : Product :=
  Electronics (mk_base product_id name price quantity_in_stock)
              brand warranty_years.

Definition strptime_error : exn :=
  ValueError "time data does not match format '%Y-%m-%d'".

Definition Grocery_init (product_id name : string) (price : number)
    (quantity_in_stock : Z) (expiry_date : string) : res Product :=
  match DateTime.strptime expiry_date with
  | Some t => Ret (Grocery (mk_base product_id name price quantity_in_stock) t)
  | None => Exc strptime_error
  end.

Definition Clothing_init (product_id name : string) (price : number)
    (quantity_in_stock : Z) (size material : string) : Product :=
  Clothing (mk_base product_id name price quantity_in_stock) size material.

(** [Product.get_total_value] *)
Definition get_total_value (p : Product) : res number :=
  py_mul (_price (base_of p)) (NInt (_quantity_in_stock (base_of p))).

(** [Grocery.is_expired] *)
Definition is_expired (now expiry_date : DateTime.datetime) : bool :=
  DateTime.gt now expiry_date.

(** [isinstance(p, Grocery) and p.is_expired()] *)
Definition is_expired_grocery (now : DateTime.datetime) (p : Product) : bool :=
  match p with
  | Grocery _ e => is_expired now e
  | _ => false
  end.

(** [restock], one definition per subclass, dispatched on the class. *)
Definition restock (amount : Z) : M Product unit :=
  fun self =>
    match self with
    | Electronics b br w =>
        (Ret tt, Electronics (with_stock b (_quantity_in_stock b + amount)) br w)
    | Grocery b e =>
        (Ret tt, Grocery (with_stock b (_quantity_in_stock b + amount)) e)
    | Clothing b sz mt =>
        (Ret tt, Clothing (with_stock b (_quantity_in_stock b + amount)) sz mt)
    end.

(** [sell], one definition per subclass; [Grocery.sell] checks the expiry
    first. *)
Definition sell (now : DateTime.datetime) (quantity : Z) : M Product unit :=
  fun self =>
    match self with
    | Electronics b br w =>
        if quantity >? _quantity_in_stock b
        then (Exc (ValueError "Not enough stock to sell."), self)
        else (Ret tt,
              Electronics (with_stock b (_quantity_in_stock b - quantity)) br w)
    | Grocery b e =>
        if is_expired now e
        then (Exc (ValueError "Cannot sell expired product."), self)
        else if quantity >? _quantity_in_stock b
        then (Exc (ValueError "Not enough stock to sell."), self)
        else (Ret tt, Grocery (with_stock b (_quantity_in_stock b - quantity)) e)
    | Clothing b sz mt =>
        if quantity >? _quantity_in_stock b
        then (Exc (ValueError "Not enough stock to sell."), self)
        else (Ret tt,
              Clothing (with_stock b (_quantity_in_stock b - quantity)) sz mt)
    end.

(** A number as [json.dump] takes it. *)
Definition json_of_number (n : number) : jvalue :=
  match n with
  | NInt z => JInt z
  | NFloat f => JFloat f
  end.

(** [Product.to_dict] *)
Definition Product_to_dict (self : Product) : jobject :=
  [ ("type", JStr (class_name self));
    ("product_id", JStr (_product_id (base_of self)));
    ("name", JStr (_name (base_of self)));
    ("price", json_of_number (_price (base_of self)));
    ("quantity_in_stock", JInt (_quantity_in_stock (base_of self))) ].

(** [to_dict] of the subclasses: [super().to_dict()], then [data.update]. *)
Definition to_dict (self : Product) : jobject :=
  match self with
  | Electronics _ brand warranty_years =>
      PyDict.update [("brand", JStr brand);
                     ("warranty_years", JInt warranty_years)]
                    (Product_to_dict self)
  | Grocery _ expiry_date =>
      PyDict.update [("expiry_date", JStr (DateTime.strftime expiry_date))]
                    (Product_to_dict self)
  | Clothing _ size material =>
      PyDict.update [("size", JStr size); ("material", JStr material)]
                    (Product_to_dict self)
  end.

(* ================================================================== *)
(** ** The [Inventory] class *)

Record Inventory : Type := mk_Inventory {
  _products : PyDict.dict Product
}.

(** [Inventory()] *)
Definition Inventory_init : Inventory := mk_Inventory PyDict.empty.

(** [self._products[k] = v], [del self._products[k]], [self._products.clear()] *)
Definition products_set (k : string) (v : Product) : M Inventory unit :=
  modify (fun self => mk_Inventory (PyDict.set k v (_products self))).
Definition products_del (k : string) : M Inventory unit :=
  modify (fun self => mk_Inventory (PyDict.del k (_products self))).
Definition products_clear : M Inventory unit :=
  modify (fun _ => mk_Inventory PyDict.empty).

(** [self._products[k].meth(...)]: the method runs on the object stored under
    [k], which it mutates in place. *)
Definition call_on {A : Type} (k : string) (meth : M Product A)
  : M Inventory A :=
  fun self =>
    match PyDict.get k (_products self) with
    | None => (Exc (KeyError k), self)
    | Some obj =>
        let (r, obj') := meth obj in
        (r, mk_Inventory (PyDict.set k obj' (_products self)))
    end.

Definition add_product (product : Product) : M Inventory unit :=
  products <- gets _products ;;
  if PyDict.contains (product_id product) products
  then raise (ValueError ("Product ID '" ++ product_id product
                          ++ "' already exists."))
  else products_set (product_id product) product.

Definition remove_product (product_id : string) : M Inventory unit :=
  products <- gets _products ;;
  if PyDict.contains product_id products
  then products_del product_id
  else raise (ValueError ("Product ID '" ++ product_id ++ "' not found.")).

Definition sell_product (now : DateTime.datetime) (product_id : string)
    (quantity : Z) : M Inventory unit :=
  products <- gets _products ;;
  if negb (PyDict.contains product_id products)
  then raise (ValueError ("Product ID '" ++ product_id ++ "' not found."))
  else call_on product_id (sell now quantity).

Definition restock_product (product_id : string) (quantity : Z)
  : M Inventory unit :=
  products <- gets _products ;;
  if negb (PyDict.contains product_id products)
  then raise (ValueError ("Product ID '" ++ product_id ++ "' not found."))
  else call_on product_id (restock quantity).

(** [sum(p.get_total_value() for p in self._products.values())]: the
    accumulator starts at the [int] 0 and the values are added in order. *)
Definition total_inventory_value (self : Inventory) : res number :=
  py_sum get_total_value (PyDict.values (_products self)) (NInt 0).

(** The clock is taken to stand still during one sweep. *)
Definition remove_expired_products (now : DateTime.datetime)
  : M Inventory unit :=
  products <- gets _products ;;
  let to_remove :=
    map fst (filter (fun it => is_expired_grocery now (snd it))
                    (PyDict.items products)) in
  for_each to_remove products_del.

(** [save_to_file]: the value handed to [json.dump], which becomes the
    content of the file. *)
Definition save_to_file (self : Inventory) : list jobject :=
  map to_dict (PyDict.values (_products self)).

(** Binding of the keyword arguments unpacked from [item] to the parameters
    of a constructor: every key must name a parameter and every parameter
    must be given. *)
Definition binds (params : list string) (item : jobject) : bool :=
  forallb (fun k => existsb (String.eqb k) params) (PyDict.keys item)
  && forallb (fun p => PyDict.contains p item) params.

(** Typed reading of an argument.  The attributes of the model are typed,
    so a value of another type cannot be stored: the model stops there with
    a [TypeError], whereas Python stores the value and goes on.  On a record
    that is [typed_item] (below) this case does not arise, and the statements
    about loading are made for such records. *)
Definition arg_str (k : string) (item : jobject) : res string :=
  match PyDict.get k item with
  | Some (JStr s) => Ret s
  | _ => Exc (TypeError k)
  end.
Definition arg_int (k : string) (item : jobject) : res Z :=
  match PyDict.get k item with
  | Some (JInt z) => Ret z
  | _ => Exc (TypeError k)
  end.
Definition arg_num (k : string) (item : jobject) : res number :=
  match PyDict.get k item with
  | Some (JFloat f) => Ret (NFloat f)
  | Some (JInt z) => Ret (NInt z)
  | _ => Exc (TypeError k)
  end.

Definition base_params : list string :=
  ["product_id"; "name"; "price"; "quantity_in_stock"].

(** The three constructor calls with the keyword arguments of [item]. *)
Definition Electronics_kw (item : jobject) : res Product :=
  if binds (base_params ++ ["brand"; "warranty_years"]) item then
    pid <~ arg_str "product_id" item ;;
    nm <~ arg_str "name" item ;;
    pr <~ arg_num "price" item ;;
    qty <~ arg_int "quantity_in_stock" item ;;
    br <~ arg_str "brand" item ;;
    w <~ arg_int "warranty_years" item ;;
    Ret (Electronics_init pid nm pr qty br w)
  else Exc (TypeError "__init__").

Definition Grocery_kw (item : jobject) : res Product :=
  if binds (base_params ++ ["expiry_date"]) item then
    pid <~ arg_str "product_id" item ;;
    nm <~ arg_str "name" item ;;
    pr <~ arg_num "price" item ;;
    qty <~ arg_int "quantity_in_stock" item ;;
    e <~ arg_str "expiry_date" item ;;
    Grocery_init pid nm pr qty e
  else Exc (TypeError "__init__").

Definition Clothing_kw (item : jobject) : res Product :=
  if binds (base_params ++ ["size"; "material"]) item then
    pid <~ arg_str "product_id" item ;;
    nm <~ arg_str "name" item ;;
    pr <~ arg_num "price" item ;;
    qty <~ arg_int "quantity_in_stock" item ;;
    sz <~ arg_str "size" item ;;
    mt <~ arg_str "material" item ;;
    Ret (Clothing_init pid nm pr qty sz mt)
  else Exc (TypeError "__init__").

(** [v == s] for a string literal [s]: false when [v] is not a string. *)
Definition py_eq_str (v : jvalue) (s : string) : bool :=
  match v with
  | JStr t => String.eqb t s
  | _ => false
  end.

(** Body of the loop of [load_from_file] up to the construction of
    [product]: [item.pop("type")], then the chain of comparisons. *)
Definition parse_item (item : jobject) : res Product :=
  match PyDict.get "type" item with
  | None => Exc (KeyError "type")
  | Some product_type =>
      let item := PyDict.del "type" item in
      if py_eq_str product_type "Electronics" then Electronics_kw item
      else if py_eq_str product_type "Grocery" then Grocery_kw item
      else if py_eq_str product_type "Clothing" then Clothing_kw item
      else Exc (ValueError_fmt "Unknown product type: " product_type)
  end.

(** One turn of the loop of [load_from_file]. *)
Definition load_item (item : jobject) : M Inventory unit :=
  product <- lift (parse_item item) ;;
  products_set (product_id product) product.

(** [load_from_file], given the list [data] that [json.load] returned. *)
Definition load_from_file (data : list jobject) : M Inventory unit :=
  products_clear ;;
  for_each data load_item.

(** Text made of ASCII characters only. *)
Fixpoint is_ascii (s : string) : bool :=
  match s with
  | EmptyString => true
  | String c r => (nat_of_ascii c <? 128)%nat && is_ascii r
  end.

(** The value stored under a key of the file format has the type the format
    gives it; a date is ASCII text. *)
Definition typed_value (k : string) (v : jvalue) : bool :=
  if existsb (String.eqb k) ["product_id"; "name"; "brand"; "size"; "material"]
  then match v with JStr _ => true | _ => false end
  else if String.eqb k "expiry_date"
  then match v with JStr s => is_ascii s | _ => false end
  else if String.eqb k "price"
  then match v with JInt _ | JFloat _ => true | JStr _ => false end
  else if existsb (String.eqb k) ["quantity_in_stock"; "warranty_years"]
  then match v with JInt _ => true | _ => false end
  else true.

(** A record whose values have the types of the file format.  On such a
    record the loop body of [load_from_file] raises in the model exactly when
    it raises in Python. *)
Definition typed_item (item : jobject) : bool :=
  forallb (fun kv => typed_value (fst kv) (snd kv)) item.

(** Whether the loop body builds a product from [item]. *)
Definition parses (item : jobject) : bool :=
  match parse_item item with Ret _ => true | Exc _ => false end.

(** State and outcome of a call. *)
Definition state_after {S A : Type} (m : M S A) (s : S) : S := snd (m s).
Definition outcome {S A : Type} (m : M S A) (s : S) : res A := fst (m s).

(** Stock of the record stored under [pid]. *)
Definition stock_of (pid : string) (self : Inventory) : option Z :=
  option_map quantity_in_stock (PyDict.get pid (_products self)).

(** Every record of the ledger has a non-negative stock. *)
Definition stock_nonneg (self : Inventory) : Prop :=
  Forall (fun p => 0 <= quantity_in_stock p) (PyDict.values (_products self)).

(** What the methods of [Inventory] maintain: the dictionary has no repeated
    key, every record is stored under its own id, and every expiry date is a
    calendar date at midnight, as [Grocery.__init__] produces it. *)
Definition product_ok (p : Product) : bool :=
  match p with
  | Grocery _ e => DateTime.is_midnight_date e
  | _ => true
  end.



Definition keyed_by_id (d : PyDict.dict Product) : Prop :=
  Forall (fun kv => fst kv = product_id (snd kv) /\ product_ok (snd kv) = true) d.

Definition well_formed (self : Inventory) : Prop :=
  PyDict.wf (_products self) /\ keyed_by_id (_products self).

(** The record [p] with its stock set to [q]. *)
Definition set_stock (p : Product) (q : Z) : Product :=
  match p with
  | Electronics b br w => Electronics (with_stock b q) br w
  | Grocery b e => Grocery (with_stock b q) e
  | Clothing b sz mt => Clothing (with_stock b q) sz mt
  end.

(** The calls a client can make on an [Inventory]. *)
Inductive call : Type :=
| Add (product : Product)
| Remove (product_id : string)
| Sell (now : DateTime.datetime) (product_id : string) (quantity : Z)
| Restock (product_id : string) (quantity : Z)
| SweepExpired (now : DateTime.datetime)
| Load (data : list jobject).

Definition run (c : call) : M Inventory unit :=
  match c with
  | Add p => add_product p
  | Remove pid => remove_product pid
  | Sell now pid q => sell_product now pid q
  | Restock pid q => restock_product pid q
  | SweepExpired now => remove_expired_products now
  | Load data => load_from_file data
  end.

(** [sell] and [restock] are called with positive quantities. *)
Definition positive_quantities (c : call) : Prop :=
  match c with
  | Sell _ _ q => 0 < q
  | Restock _ q => 0 < q
  | _ => True
  end.

(** The JSON record carries a stock that is an [int] and is not
    negative. *)
Definition item_stock_nonneg (item : jobject) : bool :=
  match PyDict.get "quantity_in_stock" item with
  | Some (JInt z) => 0 <=? z
  | _ => false
  end.

(** The records handed to [add_product] and [load_from_file] carry a
    non-negative stock; those of a document have the types of the file
    format. *)
Definition nonneg_inputs (c : call) : Prop :=
  match c with
  | Add p => 0 <= quantity_in_stock p
  | Load data =>
      forallb (fun item => typed_item item && item_stock_nonneg item) data
      = true
  | _ => True
  end.

(** A session: the calls are made one after the other; a call that raises
    is reported and the session goes on with the ledger as the call left it,
    as the menu loop does. *)
Definition run_all (cs : list call) (inv : Inventory) : Inventory :=
  fold_left (fun s c => state_after (run c) s) cs inv.

(** ** Sample data *)

Module Samples.

Definition noon : DateTime.datetime := DateTime.mk_datetime 2024 6 15 12 0 0 0.

Definition phone : Product :=
  Electronics_init "E1" "Phone" (NFloat 500) 10 "Acme" 2.
Definition shirt : Product :=
  Clothing_init "C1" "Shirt" (NFloat 25) 15 "M" "Cotton".
Definition old_milk : Product :=
  Grocery (mk_base "G1" "Milk" (NFloat 2.5) 20)
          (DateTime.mk_datetime 2024 6 14 0 0 0 0).
Definition milk : Product :=
  Grocery (mk_base "G2" "Milk" (NFloat 2.5) 20)
          (DateTime.mk_datetime 2024 6 20 0 0 0 0).

Definition shop : Inventory :=
  mk_Inventory [("E1", phone); ("G1", old_milk); ("G2", milk); ("C1", shirt)].

(** A record with a negative stock, and a saved document holding it. *)
Definition owed_phone : Product :=
  Electronics_init "E9" "Phone" (NFloat 500) (-5) "Acme" 2.
Definition owed_doc : list jobject :=
  [ [ ("type", JStr "Electronics"); ("product_id", JStr "E9");
      ("name", JStr "Phone"); ("price", JFloat 500);
      ("quantity_in_stock", JInt (-5)); ("brand", JStr "Acme");
      ("warranty_years", JInt 2) ] ].

(** A document whose second record has an unknown category tag. *)
Definition toy_doc : list jobject :=
  [ [ ("type", JStr "Clothing"); ("product_id", JStr "C7");
      ("name", JStr "Scarf"); ("price", JFloat 12);
      ("quantity_in_stock", JInt 4); ("size", JStr "L");
      ("material", JStr "Wool") ];
    [ ("type", JStr "Toy"); ("product_id", JStr "T1");
      ("name", JStr "Kite"); ("price", JFloat 9);
      ("quantity_in_stock", JInt 1) ];
    [ ("type", JStr "Electronics"); ("product_id", JStr "E9");
      ("name", JStr "Phone"); ("price", JFloat 500);
      ("quantity_in_stock", JInt 3); ("brand", JStr "Acme");
      ("warranty_years", JInt 2) ] ].

(** A [Grocery] with an expiry date in the year 987, and a [Grocery] that
    expires on the day of [noon]. *)
Definition mead : Product :=
  Grocery (mk_base "G7" "Mead" (NFloat 4) 2)
          (DateTime.mk_datetime 987 1 5 0 0 0 0).
Definition cream : Product :=
  Grocery (mk_base "G3" "Cream" (NFloat 1.5) 6)
          (DateTime.mk_datetime 2024 6 15 0 0 0 0).

End Samples.

(* ================================================================== *)
(** ** Searching the ledger *)

(** [str.lower] on ASCII text: the letters [A]..[Z] are mapped to [a]..[z],
    every other character is kept. *)
Definition lower_ascii (c : ascii) : ascii :=
  let n := nat_of_ascii c in
  if ((65 <=? n) && (n <=? 90))%nat then ascii_of_nat (n + 32) else c.

Fixpoint lower (s : string) : string :=
  match s with
  | EmptyString => EmptyString
  | String c r => String (lower_ascii c) (lower r)
  end.

(** [search_by_name]: the list comprehension over [self._products.values()]. *)
Definition search_by_name (name : string) (self : Inventory) : list Product :=
  filter (fun p => String.eqb (lower (_name (base_of p))) (lower name))
         (PyDict.values (_products self)).

(** [search_by_type] *)
Definition search_by_type (product_type : string) (self : Inventory)
  : list Product :=
  filter (fun p => String.eqb (lower (class_name p)) (lower product_type))
         (PyDict.values (_products self)).

(** The products built by the records of a document that parse, in the
    order of the document. *)
Definition parsed_records (data : list jobject) : list Product :=
  flat_map (fun item => match parse_item item with
                        | Ret p => [p]
                        | Exc _ => []
                        end) data.

(** The last record of [ps] whose id is [pid]. *)
Definition last_with_id (pid : string) (ps : list Product) : option Product :=
  find (fun p => String.eqb (product_id p) pid) (rev ps).

(** A record handed to [add_product] comes from a constructor. *)
Definition built_by_constructor (c : call) : Prop :=
  match c with
  | Add p => product_ok p = true
  | _ => True
  end.

(* ================================================================== *)
(** ** The [Counter] class of [02_cls.py] *)

Module Counter.

(** The class variable [Counter.count] and the text printed so far. *)
Record world : Type := mk_world {
  count : Z;
  stdout : list string
}.

(** The class statement: [count = 0]; nothing is printed yet. *)
Definition class_defined : world := mk_world 0 [].

(** [str(n)] for an [int]. *)
Definition str_int (n : Z) : string := NilZero.string_of_int (Z.to_int n).

(** [Counter()]: [__init__] adds one to the class variable. *)
Definition Counter_init : M world unit :=
  modify (fun w => mk_world (count w + 1) (stdout w)).

(** [Counter.get_count()] *)
Definition get_count : M world unit :=
  modify (fun w =>
    mk_world (count w)
             (app (stdout w)
                  ["Total Objects Created: " ++ str_int (count w)])).

(** [n] objects are created one after the other. *)
Fixpoint create (n : nat) : M world unit :=
  match n with
  | O => ret tt
  | S k => Counter_init ;; create k
  end.

(** The statements of the script after the class statement. *)
Definition script : M world unit :=
  Counter_init ;; Counter_init ;; Counter_init ;; get_count.

End Counter.

(* ================================================================== *)
(** * Properties *)

(** ** Facts about dictionaries *)

Module PyDictFacts.
Import PyDict.

Section Facts.
Context {V : Type}.
Implicit Types (d : dict V) (k : string) (v : V).

Lemma contains_true k d :
  contains k d = true <-> exists v, get k d = Some v.
Proof.
  unfold contains. destruct (get k d) as [v|]; split; intros H;
    try discriminate; eauto. destruct H as [? H]; discriminate.
Qed.

Lemma contains_false k d : contains k d = false <-> get k d = None.
Proof.
  unfold contains. destruct (get k d); split; intros; congruence.
Qed.

Lemma get_none_not_in k d : get k d = None <-> ~ In k (keys d).
Proof.
  induction d as [|[k' v'] r IH]; simpl.
  - tauto.
  - destruct (String.eqb_spec k k') as [->|Hne].
    + split; [discriminate | intros H; exfalso; apply H; now left].
    + rewrite IH. split; intros H; [intros [E|I]; [congruence | tauto] | tauto].
Qed.

Lemma get_in k v d : get k d = Some v -> In (k, v) d.
Proof.
  induction d as [|[k' v'] r IH]; simpl; [discriminate|].
  destruct (String.eqb_spec k k') as [->|Hne].
  - intros [= ->]. now left.
  - intros H. right. auto.
Qed.

Lemma in_get k v d : wf d -> In (k, v) d -> get k d = Some v.
Proof.
  unfold wf. induction d as [|[k' v'] r IH]; simpl; [tauto|].
  intros Hnd [E|I]; inversion Hnd as [|? ? Hni Hnd']; subst.
  - injection E as -> ->. now rewrite String.eqb_refl.
  - destruct (String.eqb_spec k k') as [->|Hne]; [|auto].
    exfalso. apply Hni. change k' with (fst (k', v)). now apply in_map.
Qed.

(** Assignment to an absent key appends. *)
Lemma set_absent k v d : get k d = None -> set k v d = (d ++ [(k, v)])%list.
Proof.
  induction d as [|[k' v'] r IH]; simpl; [reflexivity|].
  destruct (String.eqb k k'); [discriminate|].
  intros H. now rewrite IH.
Qed.

(** Storing back the object found under a key changes nothing. *)
Lemma set_get_same k v d : get k d = Some v -> set k v d = d.
Proof.
  induction d as [|[k' v'] r IH]; simpl; [discriminate|].
  destruct (String.eqb k k'); [intros [= ->]; reflexivity|].
  intros H. now rewrite IH.
Qed.

Lemma get_set_same k v d : get k (set k v d) = Some v.
Proof.
  induction d as [|[k' v'] r IH]; simpl.
  - now rewrite String.eqb_refl.
  - destruct (String.eqb k k') eqn:E; simpl; rewrite E; auto.
Qed.

Lemma get_set_other k k' v d :
  k' <> k -> get k' (set k v d) = get k' d.
Proof.
  intros Hne. induction d as [|[k0 v0] r IH]; simpl.
  - destruct (String.eqb_spec k' k); congruence.
  - destruct (String.eqb_spec k k0) as [->|]; simpl.
    + destruct (String.eqb_spec k' k0); congruence.
    + now rewrite IH.
Qed.

Lemma keys_set_present k v d :
  contains k d = true -> keys (set k v d) = keys d.
Proof.
  unfold contains. induction d as [|[k0 v0] r IH]; simpl; [discriminate|].
  destruct (String.eqb k k0); simpl; [reflexivity|].
  intros H. now rewrite IH.
Qed.

(** The values after an in-place assignment: the old ones or the new one. *)
Lemma in_values_set k v d x :
  In x (values (set k v d)) -> x = v \/ In x (values d).
Proof.
  induction d as [|[k0 v0] r IH]; simpl.
  - intros [<-|[]]; auto.
  - destruct (String.eqb k k0); simpl.
    + intros [<-|I]; auto.
    + intros [<-|I]; auto. destruct (IH I); auto.
Qed.

Lemma in_values_del k d x : In x (values (del k d)) -> In x (values d).
Proof.
  induction d as [|[k0 v0] r IH]; simpl; [tauto|].
  destruct (String.eqb k k0); simpl; [auto|].
  intros [<-|I]; auto.
Qed.

Lemma del_head_other k k0 v0 d :
  k <> k0 -> del k ((k0, v0) :: d) = (k0, v0) :: del k d.
Proof.
  intros Hne. simpl. destruct (String.eqb_spec k k0); congruence.
Qed.

Lemma get_del_same k d : wf d -> get k (del k d) = None.
Proof.
  unfold wf. induction d as [|[k0 v0] r IH]; simpl; [reflexivity|].
  intros Hnd. inversion Hnd as [|? ? Hni Hnd']; subst.
  destruct (String.eqb_spec k k0) as [->|Hne].
  - now apply get_none_not_in.
  - simpl. destruct (String.eqb_spec k k0); [congruence | auto].
Qed.

Lemma get_del_other k k' d : k' <> k -> get k' (del k d) = get k' d.
Proof.
  intros Hne. induction d as [|[k0 v0] r IH]; simpl; [reflexivity|].
  destruct (String.eqb_spec k k0) as [->|]; simpl.
  - destruct (String.eqb_spec k' k0); congruence.
  - now rewrite IH.
Qed.
End Facts.

End PyDictFacts.

(** ** Method calls through the ledger *)

Lemma Inventory_eta (inv : Inventory) : mk_Inventory (_products inv) = inv.
Proof. now destruct inv. Qed.

Lemma sell_product_present now pid q inv p :
  PyDict.get pid (_products inv) = Some p ->
  sell_product now pid q inv =
  (fst (sell now q p),
   mk_Inventory (PyDict.set pid (snd (sell now q p)) (_products inv))).
Proof.
  intros H. unfold sell_product, bind, gets, PyDict.contains, call_on.
  rewrite H. simpl. rewrite H. now destruct (sell now q p).
Qed.

Lemma restock_product_present pid q inv p :
  PyDict.get pid (_products inv) = Some p ->
  restock_product pid q inv =
  (fst (restock q p),
   mk_Inventory (PyDict.set pid (snd (restock q p)) (_products inv))).
Proof.
  intros H. unfold restock_product, bind, gets, PyDict.contains, call_on.
  rewrite H. simpl. rewrite H. now destruct (restock q p).
Qed.

Lemma sell_product_absent now pid q inv :
  PyDict.get pid (_products inv) = None ->
  sell_product now pid q inv = (Exc (NotFound pid), inv).
Proof.
  intros H. unfold sell_product, bind, gets, PyDict.contains.
  now rewrite H.
Qed.

Lemma restock_product_absent pid q inv :
  PyDict.get pid (_products inv) = None ->
  restock_product pid q inv = (Exc (NotFound pid), inv).
Proof.
  intros H. unfold restock_product, bind, gets, PyDict.contains.
  now rewrite H.
Qed.

(** ** The three outcomes of [sell] on one record *)

Lemma sell_expired now q b e :
  is_expired now e = true ->
  sell now q (Grocery b e) = (Exc ExpiredProduct, Grocery b e).
Proof. intros H. simpl. now rewrite H. Qed.

Lemma sell_enough now q p :
  is_expired_grocery now p = false ->
  q <= quantity_in_stock p ->
  sell now q p = (Ret tt, set_stock p (quantity_in_stock p - q)).
Proof.
  intros Hx Hq.
  destruct p as [b br w | b e | b sz mt]; unfold quantity_in_stock in *;
    simpl in *; try rewrite Hx;
    destruct (Z.gtb_spec q (_quantity_in_stock b)); try lia; reflexivity.
Qed.

Lemma sell_short now q p :
  is_expired_grocery now p = false ->
  q > quantity_in_stock p ->
  sell now q p = (Exc InsufficientStock, p).
Proof.
  intros Hx Hq.
  destruct p as [b br w | b e | b sz mt]; unfold quantity_in_stock in *;
    simpl in *; try rewrite Hx;
    destruct (Z.gtb_spec q (_quantity_in_stock b)); try lia; reflexivity.
Qed.

Lemma restock_result q p :
  restock q p = (Ret tt, set_stock p (quantity_in_stock p + q)).
Proof. now destruct p. Qed.

Lemma quantity_set_stock p q : quantity_in_stock (set_stock p q) = q.
Proof. now destruct p. Qed.

Lemma product_id_set_stock p q : product_id (set_stock p q) = product_id p.
Proof. now destruct p. Qed.

Lemma stock_of_set pid p inv :
  stock_of pid (mk_Inventory (PyDict.set pid p (_products inv)))
  = Some (quantity_in_stock p).
Proof. unfold stock_of. simpl. now rewrite PyDictFacts.get_set_same. Qed.

(** ** Claims about [sell] and [restock] *)

(** C3: selling a positive quantity of an expired [Grocery] record raises the
    expired-product error whatever the stock is, because the expiry is tested
    before the stock, and neither the record nor the ledger changes. *)
Theorem C3_sell_expired_grocery now pid q inv b e :
  PyDict.get pid (_products inv) = Some (Grocery b e) ->
  is_expired now e = true ->
  0 < q ->
  sell now q (Grocery b e) = (Exc ExpiredProduct, Grocery b e)
  /\ sell_product now pid q inv = (Exc ExpiredProduct, inv).
Proof.
  intros Hget Hx _. split; [now apply sell_expired|].
  rewrite (sell_product_present _ _ _ _ _ Hget), sell_expired by assumption.
  simpl. rewrite PyDictFacts.set_get_same by assumption.
  now rewrite Inventory_eta.
Qed.

Lemma C3_witness :
  sell_product Samples.noon "G1" 100 Samples.shop
  = (Exc ExpiredProduct, Samples.shop).
Proof.
  refine (proj2 (C3_sell_expired_grocery Samples.noon "G1" 100 Samples.shop
                   _ _ _ _ _)); [reflexivity | reflexivity | lia].
Defined.

(** C5, as stated, fails: for an expired [Grocery] record a quantity above
    the stock is refused with the expired-product error, not with the
    insufficient-stock error. *)
Lemma C5_counterexample :
  stock_of "G1" Samples.shop = Some 20
  /\ 21 > 20
  /\ outcome (sell_product Samples.noon "G1" 21) Samples.shop
     = Exc ExpiredProduct
  /\ outcome (sell_product Samples.noon "G1" 21) Samples.shop
     <> Exc InsufficientStock.
Proof.
  repeat split; try reflexivity. vm_compute. discriminate.
Qed.

(** C5 (amended): for a record stored under [pid] that is not an expired
    [Grocery], selling [q <= stock] succeeds and leaves [stock - q], and
    selling [q > stock] raises the insufficient-stock error and leaves the
    ledger as it was. *)
Theorem C5_sell_product now pid q inv p :
  PyDict.get pid (_products inv) = Some p ->
  is_expired_grocery now p = false ->
  (q <= quantity_in_stock p ->
     outcome (sell_product now pid q) inv = Ret tt
     /\ stock_of pid (state_after (sell_product now pid q) inv)
        = Some (quantity_in_stock p - q))
  /\ (q > quantity_in_stock p ->
     outcome (sell_product now pid q) inv = Exc InsufficientStock
     /\ state_after (sell_product now pid q) inv = inv).
Proof.
  intros Hget Hx. unfold outcome, state_after.
  rewrite (sell_product_present _ _ _ _ _ Hget). split; intros Hq; simpl.
  - rewrite sell_enough by assumption. simpl. split; [reflexivity|].
    now rewrite stock_of_set, quantity_set_stock.
  - rewrite sell_short by assumption. simpl. split; [reflexivity|].
    rewrite PyDictFacts.set_get_same by assumption. apply Inventory_eta.
Qed.

Lemma C5_witness :
  (outcome (sell_product Samples.noon "C1" 5) Samples.shop = Ret tt
   /\ stock_of "C1" (state_after (sell_product Samples.noon "C1" 5) Samples.shop)
      = Some (15 - 5))
  /\ (outcome (sell_product Samples.noon "G2" 21) Samples.shop
      = Exc InsufficientStock
      /\ state_after (sell_product Samples.noon "G2" 21) Samples.shop
         = Samples.shop).
Proof.
  split.
  - refine (proj1 (C5_sell_product Samples.noon "C1" 5 Samples.shop
                     Samples.shirt _ _) _);
      [reflexivity | reflexivity | vm_compute; discriminate].
  - refine (proj2 (C5_sell_product Samples.noon "G2" 21 Samples.shop
                     Samples.milk _ _) _);
      [reflexivity | reflexivity | vm_compute; reflexivity].
Defined.

(** C10: [sell] has no test on the sign of the quantity.  On a record with a
    non-negative stock that is not an expired [Grocery], selling [-n] for
    [n >= 0] raises nothing and leaves [stock + n]: the stock is unchanged for
    [n = 0] and grows by [n] for a positive [n]. *)
Theorem C10_sell_non_positive now pid n inv p :
  PyDict.get pid (_products inv) = Some p ->
  is_expired_grocery now p = false ->
  0 <= quantity_in_stock p ->
  0 <= n ->
  outcome (sell_product now pid (- n)) inv = Ret tt
  /\ stock_of pid (state_after (sell_product now pid (- n)) inv)
     = Some (quantity_in_stock p + n)
  /\ (n = 0 -> state_after (sell_product now pid (- n)) inv = inv).
Proof.
  intros Hget Hx Hs Hn. unfold outcome, state_after.
  rewrite (sell_product_present _ _ _ _ _ Hget).
  rewrite sell_enough by (assumption || lia). simpl.
  split; [reflexivity|]. split.
  - rewrite stock_of_set, quantity_set_stock. f_equal. lia.
  - intros ->. replace (quantity_in_stock p - - 0) with (quantity_in_stock p) by lia.
    replace (set_stock p (quantity_in_stock p)) with p
      by (destruct p as [[] ? ?|[] ?|[] ? ?]; reflexivity).
    rewrite PyDictFacts.set_get_same by assumption. apply Inventory_eta.
Qed.

Lemma C10_witness :
  outcome (sell_product Samples.noon "E1" (- 3)) Samples.shop = Ret tt
  /\ stock_of "E1" (state_after (sell_product Samples.noon "E1" (- 3)) Samples.shop)
     = Some (10 + 3)
  /\ (3 = 0 -> state_after (sell_product Samples.noon "E1" (- 3)) Samples.shop
               = Samples.shop).
Proof.
  refine (C10_sell_non_positive Samples.noon "E1" 3 Samples.shop
            Samples.phone _ _ _ _);
    [reflexivity | reflexivity | vm_compute; discriminate | lia].
Defined.

(** C8: restocking a present id with a non-negative amount succeeds and
    leaves [oldStock + amount]; restocking an absent id raises the not-found
    error and leaves the ledger as it was. *)
Theorem C8_restock_product pid amount inv :
  (forall old, stock_of pid inv = Some old -> 0 <= amount ->
     outcome (restock_product pid amount) inv = Ret tt
     /\ stock_of pid (state_after (restock_product pid amount) inv)
        = Some (old + amount))
  /\ (stock_of pid inv = None ->
     outcome (restock_product pid amount) inv = Exc (NotFound pid)
     /\ state_after (restock_product pid amount) inv = inv).
Proof.
  unfold outcome, state_after, stock_of. split.
  - intros old Hold _.
    destruct (PyDict.get pid (_products inv)) as [p|] eqn:Hget;
      [|discriminate].
    injection Hold as <-.
    rewrite (restock_product_present _ _ _ _ Hget), restock_result.
    cbn [fst snd _products]. split; [reflexivity|].
    rewrite PyDictFacts.get_set_same. cbn [option_map].
    now rewrite quantity_set_stock.
  - intros Hnone.
    destruct (PyDict.get pid (_products inv)) as [p|] eqn:Hget;
      [discriminate|].
    now rewrite (restock_product_absent _ _ _ Hget).
Qed.

Lemma C8_witness :
  (outcome (restock_product "E1" 5) Samples.shop = Ret tt
   /\ stock_of "E1" (state_after (restock_product "E1" 5) Samples.shop)
      = Some (10 + 5))
  /\ (outcome (restock_product "X9" 5) Samples.shop = Exc (NotFound "X9")
      /\ state_after (restock_product "X9" 5) Samples.shop = Samples.shop).
Proof.
  split.
  - refine (proj1 (C8_restock_product "E1" 5 Samples.shop) 10 _ _);
      [reflexivity | lia].
  - refine (proj2 (C8_restock_product "X9" 5 Samples.shop) _); reflexivity.
Defined.

(** ** Adding a record *)

(** C7: [add_product] raises the duplicate-id error and leaves the ledger
    unchanged when the id of the record is already a key; otherwise it
    succeeds and stores the record under its id, after the existing
    entries. *)
Theorem C7_add_product p inv :
  (PyDict.contains (product_id p) (_products inv) = true ->
     outcome (add_product p) inv = Exc (DuplicateId (product_id p))
     /\ state_after (add_product p) inv = inv)
  /\ (PyDict.contains (product_id p) (_products inv) = false ->
     outcome (add_product p) inv = Ret tt
     /\ _products (state_after (add_product p) inv)
        = (_products inv ++ [(product_id p, p)])%list
     /\ PyDict.get (product_id p) (_products (state_after (add_product p) inv))
        = Some p).
Proof.
  unfold outcome, state_after, add_product, bind, gets. simpl.
  split; intros H; rewrite H; simpl.
  - split; reflexivity.
  - split; [reflexivity|].
    apply PyDictFacts.contains_false in H.
    rewrite (PyDictFacts.set_absent _ _ _ H). split; [reflexivity|].
    rewrite <- (PyDictFacts.set_absent _ _ _ H).
    apply PyDictFacts.get_set_same.
Qed.

Lemma C7_witness :
  (outcome (add_product Samples.phone) Samples.shop = Exc (DuplicateId "E1")
   /\ state_after (add_product Samples.phone) Samples.shop = Samples.shop)
  /\ (outcome (add_product Samples.phone) Inventory_init = Ret tt
      /\ _products (state_after (add_product Samples.phone) Inventory_init)
         = [("E1", Samples.phone)]
      /\ PyDict.get "E1"
           (_products (state_after (add_product Samples.phone) Inventory_init))
         = Some Samples.phone).
Proof.
  split.
  - refine (proj1 (C7_add_product Samples.phone Samples.shop) _); reflexivity.
  - refine (proj2 (C7_add_product Samples.phone Inventory_init) _); reflexivity.
Defined.

(** ** Valuation *)

(** The sum over a list that ends with [x] is the sum over the list before
    [x], to which the term of [x] is added. *)
Lemma py_sum_snoc {A : Type} (term : A -> res number) (l : list A) (x : A)
    (acc : number) :
  py_sum term (l ++ [x])%list acc
  = (t <~ py_sum term l acc ;; v <~ term x ;; py_add t v).
Proof.
  unfold rbind. revert acc.
  induction l as [|y r IH]; intros acc; cbn [app py_sum].
  - destruct (term x) as [v|e]; [|reflexivity].
    now destruct (py_add acc v).
  - destruct (term y) as [v|e]; [|reflexivity].
    destruct (py_add acc v) as [acc'|e]; [apply IH | reflexivity].
Qed.

(** C9: the total value of the ledger is the sum over its records of unit
    price times stock, computed as Python computes it, record after record
    in the order of the ledger: it is the [int] 0 for the empty ledger; with
    one more record at the end it is the total of the records before, plus
    the price times the stock of that record; and it is 5375.0 for the
    ledger holding the phone (500.0, stock 10) and the shirt (25.0,
    stock 15). *)
Theorem C9_total_inventory_value :
  total_inventory_value Inventory_init = Ret (NInt 0)
  /\ (forall d k p,
        total_inventory_value (mk_Inventory (d ++ [(k, p)])%list)
        = (t <~ total_inventory_value (mk_Inventory d) ;;
           v <~ py_mul (_price (base_of p)) (NInt (quantity_in_stock p)) ;;
           py_add t v))
  /\ total_inventory_value
       (state_after (add_product Samples.phone ;; add_product Samples.shirt)
                    Inventory_init)
     = Ret (NFloat 5375).
Proof.
  split; [reflexivity|]. split; [|reflexivity].
  intros d k p. unfold total_inventory_value, PyDict.values.
  cbn [_products]. rewrite map_app. cbn [map snd].
  rewrite py_sum_snoc. reflexivity.
Qed.

(** The products and the sum are binary64 operations: three units at 0.1
    are worth 0.30000000000000004, and an [int] stock beyond the range of
    binary64 makes the valuation raise. *)
Example total_value_rounds :
  total_inventory_value
    (mk_Inventory
       [("C2", Clothing_init "C2" "Pin" (NFloat 0x1.999999999999ap-4) 3
                             "S" "Tin")])
  = Ret (NFloat 0x1.3333333333334p-2).
Proof. reflexivity. Qed.

Example total_value_overflows :
  total_inventory_value
    (mk_Inventory
       [("C2", Clothing_init "C2" "Pin" (NFloat 1) (2 ^ 1024) "S" "Tin")])
  = Exc (OverflowError "int too large to convert to float").
Proof. vm_compute. reflexivity. Qed.

(** ** Order of datetimes *)

Module DateTimeFacts.
Import DateTime.

Lemma lex_opp c1 c2 : CompOpp (lex c1 c2) = lex (CompOpp c1) (CompOpp c2).
Proof. now destruct c1. Qed.

Lemma compare_antisym a b : compare b a = CompOpp (compare a b).
Proof.
  unfold compare. rewrite !lex_opp, <- !Z.compare_antisym. reflexivity.
Qed.

(** [now > t] is [t < now]. *)
Lemma gt_lt a b : gt a b = lt b a.
Proof.
  unfold gt, lt. rewrite (compare_antisym a b).
  now destruct (compare a b).
Qed.

Lemma gt_irrefl a : gt a a = false.
Proof.
  unfold gt, compare. now rewrite !Z.compare_refl.
Qed.

(** From the first microsecond after midnight, the day of [t] is past the
    midnight that opens it. *)
Lemma gt_same_day y m d h mi s us :
  0 <= h -> 0 <= mi -> 0 <= s -> 0 <= us -> 0 < h + mi + s + us ->
  gt (mk_datetime y m d h mi s us) (mk_datetime y m d 0 0 0 0) = true.
Proof.
  intros Hh Hm Hs Hu Hpos. unfold gt, compare. simpl.
  rewrite !Z.compare_refl. simpl.
  destruct (Z.compare_spec h 0) as [->| |]; simpl; try lia; try reflexivity.
  destruct (Z.compare_spec mi 0) as [->| |]; simpl; try lia; try reflexivity.
  destruct (Z.compare_spec s 0) as [->| |]; simpl; try lia; try reflexivity.
  destruct (Z.compare_spec us 0) as [->| |]; simpl; try lia; reflexivity.
Qed.

End DateTimeFacts.

(** ** The sweep of expired groceries *)

Lemma is_expired_grocery_spec now p :
  is_expired_grocery now p = true
  <-> exists b e, p = Grocery b e /\ DateTime.lt e now = true.
Proof.
  destruct p as [b br w | b e | b sz mt]; simpl.
  - split; [discriminate | intros (? & ? & [=] & _)].
  - unfold is_expired. rewrite DateTimeFacts.gt_lt. split.
    + intros H. now exists b, e.
    + now intros (? & ? & [= <- <-] & H).
  - split; [discriminate | intros (? & ? & [=] & _)].
Qed.

Lemma for_each_del (ks : list string) (inv : Inventory) :
  for_each ks products_del inv
  = (Ret tt,
     mk_Inventory (PyDict.del_all ks (_products inv))).
Proof.
  unfold PyDict.del_all.
  revert inv. induction ks as [|k r IH]; intros inv; simpl.
  - unfold ret. now rewrite Inventory_eta.
  - unfold bind, products_del, modify at 1. now rewrite IH.
Qed.

Section Sweep.
Context {V : Type} (expired : string * V -> bool).
Implicit Types (d : PyDict.dict V).

Lemma del_all_head_kept ks k v d :
  ~ In k ks ->
  PyDict.del_all ks ((k, v) :: d) = (k, v) :: PyDict.del_all ks d.
Proof.
  revert d. induction ks as [|k' r IH]; intros d Hni; [reflexivity|].
  unfold PyDict.del_all in *. cbn [fold_left].
  rewrite PyDictFacts.del_head_other by (intros ->; apply Hni; now left).
  apply IH. intros I. apply Hni. now right.
Qed.

(** Deleting, one by one, the keys of the entries selected by [expired]
    leaves the other entries, in their order. *)
Lemma del_all_filter d :
  PyDict.wf d ->
  PyDict.del_all (map fst (filter expired d)) d
  = filter (fun it => negb (expired it)) d.
Proof.
  unfold PyDict.wf. induction d as [|[k v] r IH]; intros Hnd;
    [reflexivity|].
  inversion Hnd as [|? ? Hni Hnd']; subst. cbn [filter].
  destruct (expired (k, v)); cbn [negb map fst].
  - unfold PyDict.del_all in *. cbn [fold_left PyDict.del].
    rewrite String.eqb_refl. now apply IH.
  - rewrite del_all_head_kept.
    + f_equal. now apply IH.
    + intros I. apply Hni. apply in_map_iff in I as ([k' v'] & <- & I).
      apply filter_In in I as [I _].
      change (fst (k', v')) with (fst (k', v')). now apply in_map.
Qed.

Lemma get_filter (keep : string * V -> bool) k d :
  PyDict.wf d ->
  PyDict.get k (filter keep d)
  = match PyDict.get k d with
    | Some v => if keep (k, v) then Some v else None
    | None => None
    end.
Proof.
  unfold PyDict.wf. induction d as [|[k0 v0] r IH]; intros Hnd;
    [reflexivity|].
  inversion Hnd as [|? ? Hni Hnd']; subst. cbn [filter PyDict.get].
  destruct (String.eqb_spec k k0) as [->|Hne].
  - destruct (keep (k0, v0)) eqn:Hk; cbn [PyDict.get].
    + now rewrite String.eqb_refl.
    + rewrite IH by assumption.
      apply PyDictFacts.get_none_not_in in Hni. now rewrite Hni.
  - destruct (keep (k0, v0)); cbn [PyDict.get].
    + destruct (String.eqb_spec k k0); [congruence | now apply IH].
    + now apply IH.
Qed.
End Sweep.

(** C4, as stated, fails: a [Grocery] whose expiry date is the current date,
    hence not strictly before it, is removed by a sweep made at noon of that
    date. *)
Lemma C4_counterexample :
  DateTime.date Samples.noon = (2024, 6, 15)
  /\ DateTime.date_lt (DateTime.mk_datetime 2024 6 15 0 0 0 0) Samples.noon
     = false
  /\ PyDict.get "G3" (_products (mk_Inventory [("G3", Samples.cream)]))
     = Some Samples.cream
  /\ PyDict.get "G3"
       (_products (state_after (remove_expired_products Samples.noon)
                               (mk_Inventory [("G3", Samples.cream)])))
     = None.
Proof. repeat split; reflexivity. Qed.

(** C4 (amended): the sweep succeeds and removes exactly the [Grocery]
    records whose [expiry_date], the midnight that opens the expiry day, is
    strictly before the reading of the clock ([is_expired] is
    [now > expiry_date] on datetimes), so that a record expiring on the
    current day is removed once midnight has passed; every other record
    stays, unchanged, under its key and in its place. *)
Theorem C4_remove_expired_products now inv :
  PyDict.wf (_products inv) ->
  outcome (remove_expired_products now) inv = Ret tt
  /\ _products (state_after (remove_expired_products now) inv)
     = filter (fun it => negb (is_expired_grocery now (snd it)))
              (_products inv)
  /\ (forall pid p,
        PyDict.get pid (_products (state_after (remove_expired_products now) inv))
        = Some p
        <-> PyDict.get pid (_products inv) = Some p
            /\ ~ (exists b e, p = Grocery b e /\ DateTime.lt e now = true)).
Proof.
  intros Hwf.
  assert (Hrun : remove_expired_products now inv
                 = (Ret tt,
                    mk_Inventory
                      (filter (fun it => negb (is_expired_grocery now (snd it)))
                              (_products inv)))).
  { unfold remove_expired_products, bind, gets. cbn [fst snd].
    rewrite for_each_del. unfold PyDict.items.
    now rewrite (del_all_filter (fun it => is_expired_grocery now (snd it))). }
  unfold outcome, state_after. rewrite Hrun. cbn [fst snd _products].
  split; [reflexivity|]. split; [reflexivity|].
  intros pid p. rewrite get_filter by assumption.
  rewrite <- is_expired_grocery_spec.
  destruct (PyDict.get pid (_products inv)) as [v|]; cbn [snd].
  - destruct (is_expired_grocery now v) eqn:Hx; cbn [negb]; split.
    + discriminate.
    + intros [[= ->] Hn]. congruence.
    + intros [= ->]. split; [reflexivity | congruence].
    + now intros [H _].
  - split; [discriminate | now intros [H _]].
Qed.

Lemma C4_witness :
  _products (state_after (remove_expired_products Samples.noon) Samples.shop)
  = [("E1", Samples.phone); ("G2", Samples.milk); ("C1", Samples.shirt)].
Proof.
  refine (proj1 (proj2 (C4_remove_expired_products Samples.noon Samples.shop _))).
  unfold PyDict.wf. simpl.
  repeat constructor; simpl; intuition discriminate.
Defined.

(** A [Grocery] record whose expiry date is the current day counts as
    expired from the first microsecond after midnight: its [expiry_date] is
    the midnight that opens that day. *)
Remark expires_on_its_day b y m d h mi s us :
  0 <= h -> 0 <= mi -> 0 <= s -> 0 <= us -> 0 < h + mi + s + us ->
  is_expired_grocery (DateTime.mk_datetime y m d h mi s us)
                     (Grocery b (DateTime.mk_datetime y m d 0 0 0 0)) = true.
Proof. intros. simpl. unfold is_expired. now apply DateTimeFacts.gt_same_day. Qed.

(** ** Non-negative stock *)

Lemma stock_nonneg_set k p inv :
  stock_nonneg inv -> 0 <= quantity_in_stock p ->
  stock_nonneg (mk_Inventory (PyDict.set k p (_products inv))).
Proof.
  unfold stock_nonneg. rewrite !Forall_forall. cbn [_products].
  intros Hinv Hp x Hx.
  destruct (PyDictFacts.in_values_set _ _ _ _ Hx) as [->|I]; auto.
Qed.

Lemma stock_nonneg_del_all ks inv :
  stock_nonneg inv ->
  stock_nonneg (mk_Inventory (PyDict.del_all ks (_products inv))).
Proof.
  unfold stock_nonneg, PyDict.del_all. cbn [_products].
  generalize (_products inv) as d.
  induction ks as [|k r IH]; intros d Hd; cbn [fold_left]; [assumption|].
  apply IH. rewrite Forall_forall in *. intros x Hx. apply Hd.
  now apply PyDictFacts.in_values_del in Hx.
Qed.

Lemma stock_nonneg_get pid p inv :
  stock_nonneg inv -> PyDict.get pid (_products inv) = Some p ->
  0 <= quantity_in_stock p.
Proof.
  unfold stock_nonneg. rewrite Forall_forall. intros Hinv Hget.
  apply Hinv. apply PyDictFacts.get_in in Hget.
  change p with (snd (pid, p)). now apply in_map.
Qed.

(** [sell] never drives a stock below zero, whatever the quantity. *)
Lemma sell_keeps_nonneg now q p :
  0 <= quantity_in_stock p -> 0 <= quantity_in_stock (snd (sell now q p)).
Proof.
  destruct p as [b br w | b e | b sz mt]; unfold quantity_in_stock;
    simpl; intros Hp;
    try destruct (is_expired now e); simpl; try assumption;
    destruct (Z.gtb_spec q (_quantity_in_stock b)); simpl; lia.
Qed.

Lemma kw_stock_Electronics item p :
  Electronics_kw item = Ret p ->
  arg_int "quantity_in_stock" item = Ret (quantity_in_stock p).
Proof.
  unfold Electronics_kw. destruct (binds _ item); [|discriminate].
  destruct (arg_str "product_id" item); [|discriminate].
  destruct (arg_str "name" item); [|discriminate].
  destruct (arg_num "price" item); [|discriminate].
  destruct (arg_int "quantity_in_stock" item); [|discriminate].
  destruct (arg_str "brand" item); [|discriminate].
  destruct (arg_int "warranty_years" item); [|discriminate].
  cbn [rbind]. now intros [= <-].
Qed.

Lemma kw_stock_Grocery item p :
  Grocery_kw item = Ret p ->
  arg_int "quantity_in_stock" item = Ret (quantity_in_stock p).
Proof.
  unfold Grocery_kw, Grocery_init. destruct (binds _ item); [|discriminate].
  destruct (arg_str "product_id" item); [|discriminate].
  destruct (arg_str "name" item); [|discriminate].
  destruct (arg_num "price" item); [|discriminate].
  destruct (arg_int "quantity_in_stock" item); [|discriminate].
  destruct (arg_str "expiry_date" item) as [s|]; [|discriminate].
  cbn [rbind]. destruct (DateTime.strptime s); [|discriminate].
  now intros [= <-].
Qed.

Lemma kw_stock_Clothing item p :
  Clothing_kw item = Ret p ->
  arg_int "quantity_in_stock" item = Ret (quantity_in_stock p).
Proof.
  unfold Clothing_kw. destruct (binds _ item); [|discriminate].
  destruct (arg_str "product_id" item); [|discriminate].
  destruct (arg_str "name" item); [|discriminate].
  destruct (arg_num "price" item); [|discriminate].
  destruct (arg_int "quantity_in_stock" item); [|discriminate].
  destruct (arg_str "size" item); [|discriminate].
  destruct (arg_str "material" item); [|discriminate].
  cbn [rbind]. now intros [= <-].
Qed.

(** A parsed record carries the stock written in the JSON record. *)
Lemma parse_item_stock item p :
  parse_item item = Ret p ->
  PyDict.get "quantity_in_stock" item = Some (JInt (quantity_in_stock p)).
Proof.
  unfold parse_item. destruct (PyDict.get "type" item) as [t|]; [|discriminate].
  intros H.
  assert (Harg : arg_int "quantity_in_stock" (PyDict.del "type" item)
                 = Ret (quantity_in_stock p)).
  { destruct (py_eq_str t "Electronics"); [now apply kw_stock_Electronics|].
    destruct (py_eq_str t "Grocery"); [now apply kw_stock_Grocery|].
    destruct (py_eq_str t "Clothing"); [now apply kw_stock_Clothing|].
    discriminate. }
  unfold arg_int in Harg.
  rewrite PyDictFacts.get_del_other in Harg by discriminate.
  destruct (PyDict.get "quantity_in_stock" item) as [[s|z|q]|];
    try discriminate.
  now injection Harg as ->.
Qed.

Lemma load_items_nonneg data inv :
  forallb item_stock_nonneg data = true ->
  stock_nonneg inv ->
  stock_nonneg (snd (for_each data load_item inv)).
Proof.
  revert inv. induction data as [|item r IH]; intros inv Hdata Hinv;
    [assumption|].
  cbn [forallb] in Hdata. apply andb_true_iff in Hdata as [Hitem Hr].
  cbn [for_each]. unfold bind at 1, load_item, bind, lift.
  destruct (parse_item item) as [p|e] eqn:Hp; cbn [snd]; [|assumption].
  unfold products_set, modify. apply IH; [assumption|].
  apply stock_nonneg_set; [assumption|].
  unfold item_stock_nonneg in Hitem.
  rewrite (parse_item_stock _ _ Hp) in Hitem. lia.
Qed.

(** C6, as stated, fails: with positive quantities for [sell] and [restock]
    as the only precondition, [add_product] and [load_from_file] store a
    record whose stock is negative. *)
Lemma C6_counterexample :
  stock_nonneg Inventory_init
  /\ positive_quantities (Add Samples.owed_phone)
  /\ ~ stock_nonneg (state_after (run (Add Samples.owed_phone)) Inventory_init)
  /\ positive_quantities (Load Samples.owed_doc)
  /\ ~ stock_nonneg (state_after (run (Load Samples.owed_doc)) Inventory_init).
Proof.
  split; [constructor|]. split; [exact I|]. split; [|split; [exact I|]].
  - intros H. vm_compute in H. inversion H as [|? ? Hneg _]. now apply Hneg.
  - intros H. vm_compute in H. inversion H as [|? ? Hneg _]. now apply Hneg.
Qed.

(** One call keeps every stock non-negative under the two preconditions. *)
Lemma run_keeps_stock_nonneg (c : call) (inv : Inventory) :
  stock_nonneg inv ->
  positive_quantities c ->
  nonneg_inputs c ->
  stock_nonneg (state_after (run c) inv).
Proof.
  intros Hinv Hpos Hin. unfold state_after.
  destruct c as [p | pid | now pid q | pid q | now | data]; cbn [run].
  - unfold add_product, bind, gets.
    destruct (PyDict.contains (product_id p) (_products inv)); cbn [snd];
      [assumption|].
    now apply stock_nonneg_set.
  - unfold remove_product, bind, gets.
    destruct (PyDict.contains pid (_products inv)); cbn [snd];
      [|assumption].
    apply (stock_nonneg_del_all [pid]). assumption.
  - destruct (PyDict.get pid (_products inv)) as [p|] eqn:Hget.
    + rewrite (sell_product_present _ _ _ _ _ Hget). cbn [snd].
      apply stock_nonneg_set; [assumption|].
      apply sell_keeps_nonneg. eapply stock_nonneg_get; eassumption.
    + now rewrite (sell_product_absent _ _ _ _ Hget).
  - destruct (PyDict.get pid (_products inv)) as [p|] eqn:Hget.
    + rewrite (restock_product_present _ _ _ _ Hget), restock_result.
      cbn [snd]. apply stock_nonneg_set; [assumption|].
      rewrite quantity_set_stock.
      pose proof (stock_nonneg_get _ _ _ Hinv Hget). simpl in Hpos. lia.
    + now rewrite (restock_product_absent _ _ _ Hget).
  - unfold remove_expired_products, bind, gets. cbn [fst snd].
    rewrite for_each_del. cbn [snd]. now apply stock_nonneg_del_all.
  - unfold load_from_file, bind at 1, products_clear, modify.
    apply load_items_nonneg; [|constructor].
    cbn [nonneg_inputs] in Hin. rewrite forallb_forall in *.
    intros item Hitem. apply Hin in Hitem.
    now apply andb_true_iff in Hitem.
Qed.

(** C6 (amended): every stock is non-negative at all times, and every call
    (add, remove, sell, restock, sweep, load) keeps it so, when [sell] and
    [restock] receive positive quantities and, in addition, the record given
    to [add_product] carries a non-negative stock and every record of the
    document given to [load_from_file] carries a non-negative [int] stock,
    its values having the types of the file format. *)
Theorem C6_stock_nonneg_preserved (cs : list call) (inv : Inventory) :
  stock_nonneg inv ->
  Forall positive_quantities cs ->
  Forall nonneg_inputs cs ->
  stock_nonneg (run_all cs inv).
Proof.
  unfold run_all. revert inv.
  induction cs as [|c r IH]; intros inv Hinv Hpos Hin; [assumption|].
  inversion Hpos; inversion Hin; subst. cbn [fold_left].
  apply IH; [|assumption|assumption].
  now apply run_keeps_stock_nonneg.
Qed.

Lemma C6_witness :
  stock_nonneg
    (run_all [Load (save_to_file Samples.shop); Restock "E1" 5;
              Sell Samples.noon "C1" 15; Add Samples.phone;
              SweepExpired Samples.noon; Remove "G2"]
             Inventory_init).
Proof.
  apply C6_stock_nonneg_preserved.
  - constructor.
  - repeat constructor; simpl; lia.
  - repeat constructor; vm_compute; discriminate.
Defined.

(** ** Loading a document *)

Lemma load_item_ok item p inv :
  parse_item item = Ret p ->
  load_item item inv
  = (Ret tt, mk_Inventory (PyDict.set (product_id p) p (_products inv))).
Proof.
  intros H. unfold load_item, bind, lift. now rewrite H.
Qed.

Lemma load_item_fails item e inv :
  parse_item item = Exc e -> load_item item inv = (Exc e, inv).
Proof.
  intros H. unfold load_item, bind, lift. now rewrite H.
Qed.

Lemma for_each_cons {S A : Type} (x : A) (r : list A) (body : A -> M S unit) s :
  for_each (x :: r) body s
  = match body x s with
    | (Ret _, s') => for_each r body s'
    | (Exc e, s') => (Exc e, s')
    end.
Proof. reflexivity. Qed.





(** ** [strptime] after [strftime] *)

Module DateCodec.
Import DateTime.

Lemma digit_roundtrip k :
  0 <= k <= 9 -> digit_of_ascii (ascii_of_digit k) = Some k.
Proof.
  intros H.
  assert (E : k = 0 \/ k = 1 \/ k = 2 \/ k = 3 \/ k = 4 \/ k = 5 \/ k = 6
              \/ k = 7 \/ k = 8 \/ k = 9) by lia.
  repeat (destruct E as [->|E]; [reflexivity|]). now subst.
Qed.

Lemma parse_month_pad2 m rest :
  1 <= m <= 12 -> parse_month (pad2 m ++ String "-" rest) = Some (m, rest).
Proof.
  intros H.
  assert (E : m = 1 \/ m = 2 \/ m = 3 \/ m = 4 \/ m = 5 \/ m = 6 \/ m = 7
              \/ m = 8 \/ m = 9 \/ m = 10 \/ m = 11 \/ m = 12) by lia.
  repeat (destruct E as [->|E]; [reflexivity|]). now subst.
Qed.

Lemma parse_day_pad2 d : 1 <= d <= 31 -> parse_day (pad2 d) = Some d.
Proof.
  intros H.
  assert (E : (d = 1 \/ d = 2 \/ d = 3 \/ d = 4 \/ d = 5 \/ d = 6 \/ d = 7
               \/ d = 8 \/ d = 9 \/ d = 10)
              \/ (d = 11 \/ d = 12 \/ d = 13 \/ d = 14 \/ d = 15 \/ d = 16
                  \/ d = 17 \/ d = 18 \/ d = 19 \/ d = 20)
              \/ (d = 21 \/ d = 22 \/ d = 23 \/ d = 24 \/ d = 25 \/ d = 26
                  \/ d = 27 \/ d = 28 \/ d = 29 \/ d = 30 \/ d = 31)) by lia.
  destruct E as [E|[E|E]];
    repeat (destruct E as [->|E]; [reflexivity|]); now subst.
Qed.

Lemma days_in_month_le y m : days_in_month y m <= 31.
Proof.
  unfold days_in_month.
  destruct m as [|p|p]; try lia.
  do 4 (try destruct p as [p|p|]; try lia);
    destruct (is_leap y); lia.
Qed.

Lemma valid_date_bounds y m d :
  valid_date y m d = true -> 1 <= y <= 9999 /\ 1 <= m <= 12 /\ 1 <= d <= 31.
Proof.
  unfold valid_date. rewrite !andb_true_iff, !Z.leb_le.
  pose proof (days_in_month_le y m). lia.
Qed.

(** The four digits of a year. *)
Lemma year_digits y :
  0 <= y <= 9999 ->
  0 <= y / 1000 <= 9 /\ 0 <= y / 100 mod 10 <= 9
  /\ 0 <= y / 10 mod 10 <= 9 /\ 0 <= y mod 10 <= 9
  /\ 1000 * (y / 1000) + 100 * (y / 100 mod 10)
     + 10 * (y / 10 mod 10) + y mod 10 = y.
Proof.
  intros H. Z.div_mod_to_equations. lia.
Qed.

(** Four digits and a dash are read as the year. *)
Lemma strptime_year a b c d rest :
  0 <= a <= 9 -> 0 <= b <= 9 -> 0 <= c <= 9 -> 0 <= d <= 9 ->
  strptime (String (ascii_of_digit a) (String (ascii_of_digit b)
           (String (ascii_of_digit c) (String (ascii_of_digit d)
           (String "-" rest)))))
  = match parse_month rest with
    | Some (m, rest') =>
        match parse_day rest' with
        | Some dd =>
            if valid_date (1000 * a + 100 * b + 10 * c + d) m dd
            then Some (mk_datetime (1000 * a + 100 * b + 10 * c + d)
                                   m dd 0 0 0 0)
            else None
        | None => None
        end
    | None => None
    end.
Proof.
  intros Ha Hb Hc Hd. unfold strptime.
  rewrite !digit_roundtrip by assumption. reflexivity.
Qed.

Example strptime_leap_day :
  strptime "2024-02-29" = Some (mk_datetime 2024 2 29 0 0 0 0).
Proof. reflexivity. Qed.

Example strptime_no_such_day : strptime "2023-02-29" = None.
Proof. reflexivity. Qed.

Example strptime_short_fields :
  strptime "2024-1-5" = Some (mk_datetime 2024 1 5 0 0 0 0).
Proof. reflexivity. Qed.

Example strptime_trailing_text : strptime "2024-01-311" = None.
Proof. reflexivity. Qed.

Example strftime_short_year :
  strftime (mk_datetime 987 1 5 0 0 0 0) = "987-01-05".
Proof. reflexivity. Qed.

Example strptime_short_year_text : strptime "987-01-05" = None.
Proof. reflexivity. Qed.

Lemma year_text_four_digits y : 1000 <= y -> year_text y = pad4 y.
Proof.
  intros H. unfold year_text.
  destruct (Z.ltb_spec y 10); [lia|].
  destruct (Z.ltb_spec y 100); [lia|].
  destruct (Z.ltb_spec y 1000); [lia | reflexivity].
Qed.

(** Parsing the text that [strftime] writes for a date from the year 1000 on
    gives the date back. *)
Lemma strptime_strftime t :
  is_midnight_date t = true -> 1000 <= year t ->
  strptime (strftime t) = Some t.
Proof.
  destruct t as [y m d h mi s us]. unfold is_midnight_date.
  cbn [year month day hour minute second microsecond].
  rewrite !andb_true_iff, !Z.eqb_eq.
  intros [[[[Hv ->] ->] ->] ->] Hy4.
  destruct (valid_date_bounds _ _ _ Hv) as (Hy & Hm & Hd).
  destruct (year_digits y ltac:(lia)) as (Ha & Hb & Hc & Hdd & Hsum).
  unfold strftime. cbn [year month day].
  rewrite year_text_four_digits by assumption.
  unfold pad4. cbn [append].
  rewrite strptime_year by assumption.
  rewrite parse_month_pad2 by assumption.
  rewrite parse_day_pad2 by assumption.
  rewrite Hsum, Hv. reflexivity.
Qed.

(** The text that [strftime] writes for a year below 1000 has fewer than four
    digits of year, and [strptime] refuses it. *)
Lemma strptime_strftime_short_year t :
  year t < 1000 -> strptime (strftime t) = None.
Proof.
  destruct t as [y m d h mi s us]. cbn [year]. intros Hy.
  unfold strftime, year_text. cbn [year month day].
  destruct (Z.ltb_spec y 10);
    [|destruct (Z.ltb_spec y 100); [|destruct (Z.ltb_spec y 1000); [|lia]]];
    unfold pad2; cbn [append]; unfold strptime;
    change (digit_of_ascii "-"%char) with (@None Z);
    repeat match goal with
           | |- context [match digit_of_ascii ?c with _ => _ end] =>
               destruct (digit_of_ascii c)
           end; reflexivity.
Qed.

(** What [strptime] returns is a calendar date at midnight. *)
Lemma strptime_midnight s t :
  strptime s = Some t -> is_midnight_date t = true.
Proof.
  unfold strptime.
  destruct s as [|y1 [|y2 [|y3 [|y4 [|sep rest]]]]]; try discriminate.
  destruct (digit_of_ascii y1) as [a|]; [|discriminate].
  destruct (digit_of_ascii y2) as [b|]; [|discriminate].
  destruct (digit_of_ascii y3) as [c|]; [|discriminate].
  destruct (digit_of_ascii y4) as [d|]; [|discriminate].
  destruct (is_dash sep); [|discriminate].
  destruct (parse_month rest) as [[m rest']|]; [|discriminate].
  destruct (parse_day rest') as [dd|]; [|discriminate].
  cbv zeta.
  match goal with
  | |- context [valid_date ?y m dd] =>
      destruct (valid_date y m dd) eqn:Hv; [|discriminate]
  end.
  match goal with
  | |- Some ?x = Some t -> _ =>
      intros E; assert (Ht : x = t) by congruence; rewrite <- Ht
  end.
  unfold is_midnight_date.
  cbv beta iota delta [year month day hour minute second microsecond].
  now rewrite Hv.
Qed.

End DateCodec.

(** ** Saving, then loading *)


(** A saved [Grocery] whose expiry year has fewer than four digits is
    refused when it is read back. *)
Lemma parse_item_to_dict_short_year b e :
  DateTime.year e < 1000 ->
  parse_item (to_dict (Grocery b e)) = Exc strptime_error.
Proof.
  destruct b as [pid nm pr q]. intros Hy.
  assert (H : forall s,
             parse_item
               (PyDict.update [("expiry_date", JStr s)]
                  (Product_to_dict (Grocery (mk_base pid nm pr q) e)))
             = Grocery_init pid nm pr q s)
    by (intros s; destruct pr; reflexivity).
  unfold to_dict. rewrite H. unfold Grocery_init.
  now rewrite DateCodec.strptime_strftime_short_year.
Qed.



(** C2: the round trip of [save_to_file] and [load_from_file] is broken by a
    [Grocery] whose expiry date has a year below 1000.  The constructor
    accepts the text [0987-01-05], the record is added to the empty ledger,
    [to_dict] writes the date as [987-01-05], and loading the saved document
    raises on that text and leaves the ledger empty instead of giving the
    saved ledger back. *)
Theorem C2_year_below_1000_is_not_reloaded :
  Grocery_init "G7" "Mead" (NFloat 4) 2 "0987-01-05" = Ret Samples.mead
  /\ add_product Samples.mead Inventory_init
     = (Ret tt, mk_Inventory [("G7", Samples.mead)])
  /\ PyDict.get "expiry_date" (to_dict Samples.mead)
     = Some (JStr "987-01-05")
  /\ load_from_file (save_to_file (mk_Inventory [("G7", Samples.mead)]))
                    (mk_Inventory [("G7", Samples.mead)])
     = (Exc strptime_error, Inventory_init).
Proof. repeat split; reflexivity. Qed.

Lemma Samples_shop_well_formed : well_formed Samples.shop.
Proof.
  split.
  - unfold PyDict.wf. simpl. repeat constructor; simpl; intuition discriminate.
  - unfold keyed_by_id. repeat constructor.
Qed.

(** ** The ledgers the methods build are well formed *)

Section WellFormed.
Context {V : Type}.
Implicit Types (d : PyDict.dict V) (k : string) (v : V).

Lemma keys_set k v d :
  PyDict.keys (PyDict.set k v d)
  = if PyDict.contains k d then PyDict.keys d
    else (PyDict.keys d ++ [k])%list.
Proof.
  destruct (PyDict.contains k d) eqn:Hc.
  - now apply PyDictFacts.keys_set_present.
  - apply PyDictFacts.contains_false in Hc.
    rewrite (PyDictFacts.set_absent _ _ _ Hc). unfold PyDict.keys.
    now rewrite map_app.
Qed.

Lemma wf_set k v d : PyDict.wf d -> PyDict.wf (PyDict.set k v d).
Proof.
  unfold PyDict.wf. rewrite keys_set.
  destruct (PyDict.contains k d) eqn:Hc; [auto|].
  intros Hnd. apply PyDictFacts.contains_false in Hc.
  apply PyDictFacts.get_none_not_in in Hc.
  apply NoDup_rev in Hnd. rewrite <- (rev_involutive (_ ++ [k])).
  apply NoDup_rev. rewrite rev_app_distr. cbn [rev app].
  constructor; [|assumption]. now rewrite <- in_rev.
Qed.

Lemma Forall_set (P : string * V -> Prop) k v d :
  Forall P d -> P (k, v) -> Forall P (PyDict.set k v d).
Proof.
  intros Hd Hv. induction Hd as [|[k0 v0] r H0 Hr IH]; cbn [PyDict.set].
  - now repeat constructor.
  - destruct (String.eqb_spec k k0) as [<-|]; constructor; auto.
Qed.

Lemma in_del k d x : In x (PyDict.del k d) -> In x d.
Proof.
  induction d as [|[k0 v0] r IH]; cbn [PyDict.del]; [tauto|].
  destruct (String.eqb k k0); [now right|].
  intros [<-|I]; [now left | right; auto].
Qed.

Lemma wf_del k d : PyDict.wf d -> PyDict.wf (PyDict.del k d).
Proof.
  unfold PyDict.wf. induction d as [|[k0 v0] r IH]; cbn [PyDict.del];
    [auto|].
  intros Hnd. inversion Hnd as [|? ? Hni Hnd']; subst.
  destruct (String.eqb k k0); [assumption|].
  cbn [PyDict.keys map fst]. constructor; [|now apply IH].
  intros I. apply Hni. apply in_map_iff in I as (x & Hx & I).
  apply in_del in I. rewrite <- Hx. now apply in_map.
Qed.

Lemma Forall_del (P : string * V -> Prop) k d :
  Forall P d -> Forall P (PyDict.del k d).
Proof.
  rewrite !Forall_forall. intros H x I. apply H. now apply in_del in I.
Qed.
End WellFormed.

Lemma well_formed_init : well_formed Inventory_init.
Proof. split; constructor. Qed.

Lemma well_formed_set p inv :
  well_formed inv -> product_ok p = true ->
  well_formed (mk_Inventory (PyDict.set (product_id p) p (_products inv))).
Proof.
  intros [Hwf Hk] Hok. split; cbn [_products].
  - now apply wf_set.
  - apply Forall_set; [assumption|]. now split.
Qed.

Lemma well_formed_del_all ks inv :
  well_formed inv ->
  well_formed (mk_Inventory (PyDict.del_all ks (_products inv))).
Proof.
  unfold well_formed, PyDict.del_all. cbn [_products].
  generalize (_products inv) as d.
  induction ks as [|k r IH]; intros d [Hwf Hk]; cbn [fold_left]; [now split|].
  apply IH. split; [now apply wf_del | now apply Forall_del].
Qed.

Lemma well_formed_get pid p inv :
  well_formed inv -> PyDict.get pid (_products inv) = Some p ->
  pid = product_id p /\ product_ok p = true.
Proof.
  intros [_ Hk] Hget. apply PyDictFacts.get_in in Hget.
  unfold keyed_by_id in Hk. rewrite Forall_forall in Hk.
  apply (Hk _ Hget).
Qed.

(** [sell] and [restock] change nothing but the stock. *)
Lemma sell_same_record now q p :
  product_id (snd (sell now q p)) = product_id p
  /\ product_ok (snd (sell now q p)) = product_ok p.
Proof.
  destruct p as [b br w | b e | b sz mt]; simpl;
    try destruct (is_expired now e); simpl;
    try destruct (q >? _quantity_in_stock b); now split.
Qed.

Lemma restock_same_record q p :
  product_id (snd (restock q p)) = product_id p
  /\ product_ok (snd (restock q p)) = product_ok p.
Proof. destruct p; now split. Qed.

(** What [Grocery.__init__] builds holds a calendar date at midnight. *)
Lemma Grocery_init_ok pid nm pr q s p :
  Grocery_init pid nm pr q s = Ret p -> product_ok p = true.
Proof.
  unfold Grocery_init. destruct (DateTime.strptime s) as [t|] eqn:Ht;
    [|discriminate].
  intros [= <-]. cbn [product_ok]. now apply DateCodec.strptime_midnight in Ht.
Qed.

Lemma parse_item_ok item p : parse_item item = Ret p -> product_ok p = true.
Proof.
  unfold parse_item. destruct (PyDict.get "type" item) as [t|]; [|discriminate].
  destruct (py_eq_str t "Electronics").
  { unfold Electronics_kw, rbind.
    repeat match goal with
           | |- context [match ?x with _ => _ end] => destruct x
           end; try discriminate. now intros [= <-]. }
  destruct (py_eq_str t "Grocery").
  { unfold Grocery_kw, rbind.
    destruct (binds _ _); [|discriminate].
    destruct (arg_str "product_id" _); [|discriminate].
    destruct (arg_str "name" _); [|discriminate].
    destruct (arg_num "price" _); [|discriminate].
    destruct (arg_int "quantity_in_stock" _); [|discriminate].
    destruct (arg_str "expiry_date" _); [|discriminate].
    apply Grocery_init_ok. }
  destruct (py_eq_str t "Clothing"); [|discriminate].
  unfold Clothing_kw, rbind.
  repeat match goal with
         | |- context [match ?x with _ => _ end] => destruct x
         end; try discriminate. now intros [= <-].
Qed.

Lemma load_items_well_formed data inv :
  well_formed inv -> well_formed (snd (for_each data load_item inv)).
Proof.
  revert inv. induction data as [|item r IH]; intros inv Hinv; [assumption|].
  rewrite for_each_cons.
  destruct (parse_item item) as [p|e] eqn:Hp.
  - rewrite (load_item_ok _ _ _ Hp). apply IH.
    apply well_formed_set; [assumption | now apply parse_item_ok in Hp].
  - now rewrite (load_item_fails _ _ _ Hp).
Qed.

(** Every call keeps the ledger well formed, provided a record handed to
    [add_product] was built by its constructor. *)
Lemma well_formed_preserved (c : call) (inv : Inventory) :
  well_formed inv ->
  match c with Add p => product_ok p = true | _ => True end ->
  well_formed (state_after (run c) inv).
Proof.
  intros Hinv Hc. unfold state_after.
  destruct c as [p | pid | now pid q | pid q | now | data]; cbn [run].
  - unfold add_product, bind, gets.
    destruct (PyDict.contains (product_id p) (_products inv)); cbn [snd];
      [assumption | now apply well_formed_set].
  - unfold remove_product, bind, gets.
    destruct (PyDict.contains pid (_products inv)); cbn [snd];
      [|assumption].
    now apply (well_formed_del_all [pid]).
  - destruct (PyDict.get pid (_products inv)) as [p|] eqn:Hget.
    + rewrite (sell_product_present _ _ _ _ _ Hget). cbn [snd].
      destruct (well_formed_get _ _ _ Hinv Hget) as [-> Hok].
      destruct (sell_same_record now q p) as [Hid Hok'].
      rewrite <- Hid. apply well_formed_set; [assumption | congruence].
    + now rewrite (sell_product_absent _ _ _ _ Hget).
  - destruct (PyDict.get pid (_products inv)) as [p|] eqn:Hget.
    + rewrite (restock_product_present _ _ _ _ Hget). cbn [snd].
      destruct (well_formed_get _ _ _ Hinv Hget) as [-> Hok].
      destruct (restock_same_record q p) as [Hid Hok'].
      rewrite <- Hid. apply well_formed_set; [assumption | congruence].
    + now rewrite (restock_product_absent _ _ _ Hget).
  - unfold remove_expired_products, bind, gets. cbn [fst snd].
    rewrite for_each_del. cbn [snd]. now apply well_formed_del_all.
  - unfold load_from_file, bind at 1, products_clear, modify.
    apply load_items_well_formed. apply well_formed_init.
Qed.

(** ** The cases of [test_case.py], with the clock at [Samples.noon] *)

Example grocery_constructor :
  Grocery_init "G1" "Milk" (NFloat 2.5) 20 "2024-06-14" = Ret Samples.old_milk.
Proof. reflexivity. Qed.

Example test_add_product :
  PyDict.contains "E1"
    (_products (state_after (add_product Samples.phone) Inventory_init))
  = true.
Proof. reflexivity. Qed.

Example test_sell_product :
  stock_of "C1"
    (state_after (add_product Samples.shirt ;; sell_product Samples.noon "C1" 5)
                 Inventory_init)
  = Some 10.
Proof. reflexivity. Qed.

Example test_restock_product :
  stock_of "E1"
    (state_after (add_product Samples.phone ;; restock_product "E1" 5)
                 Inventory_init)
  = Some 15.
Proof. reflexivity. Qed.

Example test_expired_grocery_removal :
  PyDict.contains "G1"
    (_products
       (state_after (add_product Samples.old_milk ;;
                     remove_expired_products Samples.noon)
                    Inventory_init))
  = false.
Proof. reflexivity. Qed.

Example test_total_inventory_value :
  total_inventory_value
    (state_after (add_product Samples.phone ;; add_product Samples.shirt)
                 Inventory_init)
  = (a <~ get_total_value Samples.phone ;;
     b <~ get_total_value Samples.shirt ;; py_add a b).
Proof. reflexivity. Qed.

(* ================================================================== *)
(** * Further properties of the ledger *)

(** ** More facts about dictionaries *)

Section DictMore.
Context {V : Type}.
Implicit Types (d : PyDict.dict V) (k : string) (v : V).

Lemma contains_in_keys k d :
  PyDict.contains k d = true <-> In k (PyDict.keys d).
Proof.
  pose proof (PyDictFacts.get_none_not_in k d) as H.
  unfold PyDict.contains. destruct (PyDict.get k d) as [v|].
  - split; [intros _|reflexivity].
    destruct (in_dec string_dec k (PyDict.keys d)) as [I|N]; [assumption|].
    apply H in N. discriminate.
  - split; [discriminate|]. intros I. now apply H in I.
Qed.

Lemma del_filter k d :
  PyDict.wf d ->
  PyDict.del k d = filter (fun it => negb (String.eqb k (fst it))) d.
Proof.
  unfold PyDict.wf. induction d as [|[k0 v0] r IH]; intros Hnd;
    [reflexivity|].
  inversion Hnd as [|? ? Hni Hnd']; subst. cbn [PyDict.del filter fst].
  destruct (String.eqb_spec k k0) as [->|Hne]; cbn [negb].
  - symmetry. apply forallb_filter_id. apply forallb_forall.
    intros [k1 v1] I. cbn [fst].
    destruct (String.eqb_spec k0 k1) as [<-|]; [|reflexivity].
    exfalso. apply Hni. change k0 with (fst (k0, v1)). now apply in_map.
  - f_equal. now apply IH.
Qed.

Lemma del_app_absent k v d :
  PyDict.get k d = None -> PyDict.del k (d ++ [(k, v)])%list = d.
Proof.
  induction d as [|[k0 v0] r IH]; cbn [PyDict.get PyDict.del app].
  - now rewrite String.eqb_refl.
  - destruct (String.eqb k k0); [discriminate|].
    intros H. now rewrite IH.
Qed.

Lemma set_set k v v' d :
  PyDict.set k v (PyDict.set k v' d) = PyDict.set k v d.
Proof.
  induction d as [|[k0 v0] r IH]; cbn [PyDict.set].
  - now rewrite String.eqb_refl.
  - destruct (String.eqb k k0) eqn:E; cbn [PyDict.set]; rewrite E;
      [reflexivity | now rewrite IH].
Qed.

Lemma keys_set_get k v v' d :
  PyDict.get k d = Some v' -> PyDict.keys (PyDict.set k v d) = PyDict.keys d.
Proof.
  intros H. apply PyDictFacts.keys_set_present.
  unfold PyDict.contains. now rewrite H.
Qed.
End DictMore.

(** ** Removing a record *)

(** X1: on a ledger without repeated keys, [remove_product] of a present id
    succeeds, after which the id is absent, every other id is looked up as
    before and the remaining entries keep their order; for an absent id it
    raises the not-found error and leaves the ledger as it was. *)
Theorem X1_remove_product pid inv :
  PyDict.wf (_products inv) ->
  (PyDict.contains pid (_products inv) = true ->
     outcome (remove_product pid) inv = Ret tt
     /\ PyDict.get pid (_products (state_after (remove_product pid) inv)) = None
     /\ (forall k, k <> pid ->
           PyDict.get k (_products (state_after (remove_product pid) inv))
           = PyDict.get k (_products inv))
     /\ _products (state_after (remove_product pid) inv)
        = filter (fun it => negb (String.eqb pid (fst it))) (_products inv))
  /\ (PyDict.contains pid (_products inv) = false ->
     outcome (remove_product pid) inv = Exc (NotFound pid)
     /\ state_after (remove_product pid) inv = inv).
Proof.
  intros Hwf. unfold outcome, state_after, remove_product, bind, gets.
  cbn [fst snd]. split; intros Hc; rewrite Hc; cbn [fst snd].
  - unfold products_del, modify. cbn [fst snd _products].
    split; [reflexivity|]. split; [now apply PyDictFacts.get_del_same|].
    split; [|now apply del_filter].
    intros k Hk. now apply PyDictFacts.get_del_other.
  - split; reflexivity.
Qed.

Lemma X1_witness :
  PyDict.keys (_products (state_after (remove_product "G1") Samples.shop))
  = ["E1"; "G2"; "C1"]
  /\ outcome (remove_product "X9") Samples.shop = Exc (NotFound "X9").
Proof.
  pose proof (X1_remove_product "G1" Samples.shop
                (proj1 Samples_shop_well_formed)) as [H _].
  pose proof (X1_remove_product "X9" Samples.shop
                (proj1 Samples_shop_well_formed)) as [_ H'].
  destruct (H eq_refl) as (_ & _ & _ & ->).
  destruct (H' eq_refl) as [-> _]. split; reflexivity.
Defined.

(** X2: adding a record under a new id and then removing that id gives back
    the ledger exactly as it was. *)
Theorem X2_add_then_remove p inv :
  PyDict.contains (product_id p) (_products inv) = false ->
  (add_product p ;; remove_product (product_id p)) inv = (Ret tt, inv).
Proof.
  intros Hc. unfold bind at 1, add_product, bind, gets. rewrite Hc.
  unfold products_set, modify, remove_product, bind, gets.
  cbn [_products].
  assert (Hget : PyDict.get (product_id p) (_products inv) = None)
    by now apply PyDictFacts.contains_false.
  rewrite (PyDictFacts.set_absent _ _ _ Hget).
  assert (Hin : PyDict.contains (product_id p)
                  (_products inv ++ [(product_id p, p)])%list = true).
  { rewrite <- (PyDictFacts.set_absent _ _ _ Hget).
    unfold PyDict.contains. now rewrite PyDictFacts.get_set_same. }
  rewrite Hin. unfold products_del, modify. cbn [_products].
  rewrite (del_app_absent _ _ _ Hget). now rewrite Inventory_eta.
Qed.

Lemma X2_witness :
  (add_product Samples.owed_phone ;; remove_product "E9") Samples.shop
  = (Ret tt, Samples.shop).
Proof.
  exact (X2_add_then_remove Samples.owed_phone Samples.shop eq_refl).
Defined.

(** ** Failures of the calls *)

Lemma sell_failure now q p e :
  fst (sell now q p) = Exc e ->
  snd (sell now q p) = p
  /\ ((is_expired_grocery now p = true /\ e = ExpiredProduct)
      \/ (is_expired_grocery now p = false /\ q > quantity_in_stock p
          /\ e = InsufficientStock)).
Proof.
  destruct p as [b br w | b x | b sz mt]; unfold quantity_in_stock;
    cbn [sell is_expired_grocery base_of];
    try (destruct (is_expired now x);
         [cbn [fst snd]; intros [= <-]; split; [reflexivity | now left]|]);
    destruct (Z.gtb_spec q (_quantity_in_stock b)); cbn [fst snd];
    try discriminate; intros [= <-]; (split; [reflexivity|]);
    right; repeat split; lia.
Qed.

Lemma sell_success now q p :
  fst (sell now q p) = Ret tt ->
  is_expired_grocery now p = false /\ q <= quantity_in_stock p.
Proof.
  destruct p as [b br w | b x | b sz mt]; unfold quantity_in_stock;
    cbn [sell is_expired_grocery base_of];
    try (destruct (is_expired now x); [discriminate|]);
    destruct (Z.gtb_spec q (_quantity_in_stock b)); cbn [fst];
    try discriminate; intros _; split; (reflexivity || lia).
Qed.

(** X3: apart from [load_from_file], a call that raises leaves the ledger
    exactly as it was: no call mutates and then fails. *)
Theorem X3_failure_changes_nothing (c : call) (inv : Inventory) (e : exn) :
  (forall data, c <> Load data) ->
  outcome (run c) inv = Exc e ->
  state_after (run c) inv = inv.
Proof.
  intros Hload. unfold outcome, state_after.
  destruct c as [p | pid | now pid q | pid q | now | data]; cbn [run].
  - unfold add_product, bind, gets.
    destruct (PyDict.contains (product_id p) (_products inv));
      cbn [fst snd]; [reflexivity | discriminate].
  - unfold remove_product, bind, gets.
    destruct (PyDict.contains pid (_products inv)); cbn [fst snd];
      [discriminate | reflexivity].
  - destruct (PyDict.get pid (_products inv)) as [p|] eqn:Hget.
    + rewrite (sell_product_present _ _ _ _ _ Hget). cbn [fst snd].
      intros Hf. destruct (sell_failure _ _ _ _ Hf) as [-> _].
      rewrite PyDictFacts.set_get_same by assumption. apply Inventory_eta.
    + now rewrite (sell_product_absent _ _ _ _ Hget).
  - destruct (PyDict.get pid (_products inv)) as [p|] eqn:Hget.
    + rewrite (restock_product_present _ _ _ _ Hget), restock_result.
      discriminate.
    + now rewrite (restock_product_absent _ _ _ Hget).
  - unfold remove_expired_products, bind, gets. cbn [fst snd].
    rewrite for_each_del. discriminate.
  - now destruct (Hload data).
Qed.

Lemma X3_witness :
  state_after (run (Sell Samples.noon "G2" 21)) Samples.shop = Samples.shop.
Proof.
  apply (X3_failure_changes_nothing (Sell Samples.noon "G2" 21) Samples.shop
           InsufficientStock); [discriminate | reflexivity].
Defined.

(** X4: the errors of [sell_product], with the exact condition of each:
    not found when the id is absent; otherwise expired for a [Grocery] past
    its date; otherwise insufficient stock when the quantity exceeds the
    stock; no other error, and success in the remaining case. *)
Theorem X4_sell_product_outcomes now pid q inv :
  match PyDict.get pid (_products inv) with
  | None => outcome (sell_product now pid q) inv = Exc (NotFound pid)
  | Some p =>
      if is_expired_grocery now p
      then outcome (sell_product now pid q) inv = Exc ExpiredProduct
      else if q >? quantity_in_stock p
      then outcome (sell_product now pid q) inv = Exc InsufficientStock
      else outcome (sell_product now pid q) inv = Ret tt
  end.
Proof.
  unfold outcome.
  destruct (PyDict.get pid (_products inv)) as [p|] eqn:Hget.
  - rewrite (sell_product_present _ _ _ _ _ Hget). cbn [fst].
    destruct (is_expired_grocery now p) eqn:Hx.
    + destruct p as [b br w | b x | b sz mt]; try discriminate.
      cbn [is_expired_grocery] in Hx. now rewrite sell_expired.
    + destruct (Z.gtb_spec q (quantity_in_stock p)).
      * now rewrite sell_short by (assumption || lia).
      * now rewrite sell_enough by assumption.
  - now rewrite (sell_product_absent _ _ _ _ Hget).
Qed.

(** ** What [sell_product] and [restock_product] leave alone *)

Lemma call_on_frame (meth : M Product unit) pid inv :
  PyDict.keys (_products (snd (call_on pid meth inv)))
  = PyDict.keys (_products inv)
  /\ (forall k, k <> pid ->
        PyDict.get k (_products (snd (call_on pid meth inv)))
        = PyDict.get k (_products inv)).
Proof.
  unfold call_on.
  destruct (PyDict.get pid (_products inv)) as [p|] eqn:Hget;
    [|now split].
  destruct (meth p) as [r p']. cbn [snd _products]. split.
  - now apply keys_set_get with (v' := p).
  - intros k Hk. now apply PyDictFacts.get_set_other.
Qed.

(** X5: whatever their outcome, [sell_product] and [restock_product] keep
    the keys of the ledger and their order, and every record stored under
    another id. *)
Theorem X5_sell_restock_frame now pid q inv :
  (PyDict.keys (_products (state_after (sell_product now pid q) inv))
   = PyDict.keys (_products inv)
   /\ forall k, k <> pid ->
        PyDict.get k (_products (state_after (sell_product now pid q) inv))
        = PyDict.get k (_products inv))
  /\ (PyDict.keys (_products (state_after (restock_product pid q) inv))
      = PyDict.keys (_products inv)
      /\ forall k, k <> pid ->
           PyDict.get k (_products (state_after (restock_product pid q) inv))
           = PyDict.get k (_products inv)).
Proof.
  unfold state_after, sell_product, restock_product, bind, gets.
  destruct (PyDict.contains pid (_products inv)); cbn [negb snd].
  - split; apply call_on_frame.
  - repeat split.
Qed.

(** ** Sequences of sales and restocks *)

Lemma set_stock_set_stock p a b : set_stock (set_stock p a) b = set_stock p b.
Proof. now destruct p. Qed.

Lemma set_stock_same p : set_stock p (quantity_in_stock p) = p.
Proof. destruct p as [[] ? ?|[] ?|[] ? ?]; reflexivity. Qed.

Lemma is_expired_grocery_set_stock now p s :
  is_expired_grocery now (set_stock p s) = is_expired_grocery now p.
Proof. now destruct p. Qed.

(** Two method calls in a row on the record stored under one id. *)
Lemma call_on_twice (m1 m2 : M Product unit) pid inv p p1 :
  PyDict.get pid (_products inv) = Some p ->
  m1 p = (Ret tt, p1) ->
  (call_on pid m1 ;; call_on pid m2) inv
  = (fst (m2 p1),
     mk_Inventory (PyDict.set pid (snd (m2 p1)) (_products inv))).
Proof.
  intros Hget H1. unfold bind, call_on. rewrite Hget, H1.
  cbv beta iota. cbn [_products]. rewrite PyDictFacts.get_set_same.
  destruct (m2 p1) as [r p2]. cbn [fst snd]. now rewrite set_set.
Qed.

Lemma sell_product_call_on now pid q inv p :
  PyDict.get pid (_products inv) = Some p ->
  sell_product now pid q inv = call_on pid (sell now q) inv.
Proof.
  intros H. unfold sell_product, bind, gets, PyDict.contains. now rewrite H.
Qed.

Lemma restock_product_call_on pid q inv p :
  PyDict.get pid (_products inv) = Some p ->
  restock_product pid q inv = call_on pid (restock q) inv.
Proof.
  intros H. unfold restock_product, bind, gets, PyDict.contains.
  now rewrite H.
Qed.

Lemma get_after_call_on (m : M Product unit) pid inv p :
  PyDict.get pid (_products inv) = Some p ->
  PyDict.get pid (_products (snd (call_on pid m inv))) = Some (snd (m p)).
Proof.
  intros H. unfold call_on. rewrite H. destruct (m p) as [r p'].
  cbn [snd _products]. apply PyDictFacts.get_set_same.
Qed.

(** A sequence of two ledger calls on a present id, the first of which
    succeeds on the record. *)
Lemma two_calls (c1 c2 : M Inventory unit) (m1 m2 : M Product unit)
    pid inv p p1 :
  PyDict.get pid (_products inv) = Some p ->
  (forall s x, PyDict.get pid (_products s) = Some x -> c1 s = call_on pid m1 s) ->
  (forall s x, PyDict.get pid (_products s) = Some x -> c2 s = call_on pid m2 s) ->
  m1 p = (Ret tt, p1) ->
  (c1 ;; c2) inv
  = (fst (m2 p1),
     mk_Inventory (PyDict.set pid (snd (m2 p1)) (_products inv))).
Proof.
  intros Hget H1 H2 Hm.
  rewrite <- (call_on_twice m1 m2 pid inv p p1 Hget Hm).
  unfold bind. rewrite (H1 _ _ Hget).
  pose proof (get_after_call_on m1 pid inv p Hget) as Hg.
  destruct (call_on pid m1 inv) as [[[]|e] s]; [|reflexivity].
  cbn [snd] in Hg. apply (H2 _ _ Hg).
Qed.

(** X6: a sale that succeeds, followed by a restock of the same quantity
    under the same id, gives back the ledger exactly as it was. *)
Theorem X6_sell_then_restock now pid q inv p :
  PyDict.get pid (_products inv) = Some p ->
  is_expired_grocery now p = false ->
  q <= quantity_in_stock p ->
  (sell_product now pid q ;; restock_product pid q) inv = (Ret tt, inv).
Proof.
  intros Hget Hx Hq.
  rewrite (two_calls _ _ (sell now q) (restock q) pid inv p
             (set_stock p (quantity_in_stock p - q)) Hget).
  - rewrite restock_result. cbn [fst snd].
    rewrite quantity_set_stock, set_stock_set_stock.
    replace (quantity_in_stock p - q + q) with (quantity_in_stock p) by lia.
    rewrite set_stock_same, PyDictFacts.set_get_same by assumption.
    now rewrite Inventory_eta.
  - intros s x. apply sell_product_call_on.
  - intros s x. apply restock_product_call_on.
  - now apply sell_enough.
Qed.

Lemma X6_witness :
  (sell_product Samples.noon "C1" 7 ;; restock_product "C1" 7) Samples.shop
  = (Ret tt, Samples.shop).
Proof.
  apply (X6_sell_then_restock Samples.noon "C1" 7 Samples.shop Samples.shirt);
    [reflexivity | reflexivity | vm_compute; discriminate].
Defined.

(** X7: two restocks in a row under one id are one restock of the sum of
    the amounts, for a present id as for an absent one and whatever the sign
    of the amounts. *)
Theorem X7_restock_twice pid a b inv :
  (restock_product pid a ;; restock_product pid b) inv
  = restock_product pid (a + b) inv.
Proof.
  destruct (PyDict.get pid (_products inv)) as [p|] eqn:Hget.
  - rewrite (two_calls _ _ (restock a) (restock b) pid inv p
               (set_stock p (quantity_in_stock p + a)) Hget).
    + rewrite (restock_product_present _ _ _ _ Hget), !restock_result.
      cbn [fst snd]. rewrite quantity_set_stock, set_stock_set_stock.
      now rewrite Z.add_assoc.
    + intros s x. apply restock_product_call_on.
    + intros s x. apply restock_product_call_on.
    + apply restock_result.
  - unfold bind. now rewrite !(restock_product_absent _ _ _ Hget).
Qed.

(** X8: two sales of non-negative quantities in a row under one id, whose
    sum the stock covers, both succeed and leave the ledger that one sale of
    the sum leaves. *)
Theorem X8_sell_twice now pid q1 q2 inv p :
  PyDict.get pid (_products inv) = Some p ->
  is_expired_grocery now p = false ->
  0 <= q1 -> 0 <= q2 -> q1 + q2 <= quantity_in_stock p ->
  (sell_product now pid q1 ;; sell_product now pid q2) inv
  = sell_product now pid (q1 + q2) inv
  /\ outcome (sell_product now pid (q1 + q2)) inv = Ret tt.
Proof.
  intros Hget Hx H1 H2 Hsum.
  rewrite (two_calls _ _ (sell now q1) (sell now q2) pid inv p
             (set_stock p (quantity_in_stock p - q1)) Hget).
  - unfold outcome. rewrite (sell_product_present _ _ _ _ _ Hget).
    rewrite (sell_enough now (q1 + q2) p) by assumption.
    rewrite sell_enough;
      rewrite ?is_expired_grocery_set_stock, ?quantity_set_stock;
      try assumption; try lia.
    cbn [fst snd]. rewrite set_stock_set_stock. split; [|reflexivity].
    now rewrite Z.sub_add_distr.
  - intros s x. apply sell_product_call_on.
  - intros s x. apply sell_product_call_on.
  - apply sell_enough; [assumption | lia].
Qed.

Lemma X8_witness :
  (sell_product Samples.noon "E1" 4 ;; sell_product Samples.noon "E1" 6)
    Samples.shop
  = sell_product Samples.noon "E1" (4 + 6) Samples.shop
  /\ outcome (sell_product Samples.noon "E1" (4 + 6)) Samples.shop = Ret tt.
Proof.
  apply (X8_sell_twice Samples.noon "E1" 4 6 Samples.shop Samples.phone);
    [reflexivity | reflexivity | lia | lia | vm_compute; discriminate].
Defined.

(** ** Expiry as the clock advances *)

Module DateOrder.
Import DateTime.

Lemma lex_trans_step (x y z : Z) (c1 c2 c3 : comparison) :
  (c1 = Lt -> c2 = Lt -> c3 = Lt) ->
  lex (x ?= y) c1 = Lt -> lex (y ?= z) c2 = Lt -> lex (x ?= z) c3 = Lt.
Proof.
  intros H.
  destruct (Z.compare_spec x y), (Z.compare_spec y z), (Z.compare_spec x z);
    cbn [lex]; try discriminate; try reflexivity; try assumption; lia.
Qed.

Lemma compare_trans a b c :
  compare a b = Lt -> compare b c = Lt -> compare a c = Lt.
Proof.
  unfold compare. repeat apply lex_trans_step.
  rewrite !Z.compare_lt_iff. lia.
Qed.

Lemma lt_trans a b c : lt a b = true -> lt b c = true -> lt a c = true.
Proof.
  unfold lt. intros Hab Hbc.
  destruct (compare a b) eqn:E1; try discriminate.
  destruct (compare b c) eqn:E2; try discriminate.
  now rewrite (compare_trans _ _ _ E1 E2).
Qed.

End DateOrder.

(** Once expired, expired at every later reading of the clock. *)
Lemma is_expired_grocery_later now now' p :
  DateTime.lt now now' = true \/ now' = now ->
  is_expired_grocery now p = true -> is_expired_grocery now' p = true.
Proof.
  intros [Hlt| ->]; [|auto].
  destruct p as [b br w | b e | b sz mt]; cbn [is_expired_grocery]; auto.
  unfold is_expired. rewrite !DateTimeFacts.gt_lt.
  intros He. now apply DateOrder.lt_trans with now.
Qed.

(** X9: a [Grocery] record that is expired at one reading of the clock can
    never be sold at a later reading: the sale raises the expired-product
    error whatever the quantity. *)
Theorem X9_expired_for_good now now' pid q inv p :
  PyDict.get pid (_products inv) = Some p ->
  is_expired_grocery now p = true ->
  DateTime.lt now now' = true ->
  sell_product now' pid q inv = (Exc ExpiredProduct, inv).
Proof.
  intros Hget Hx Hlt.
  assert (Hx' : is_expired_grocery now' p = true)
    by (apply (is_expired_grocery_later now); auto).
  destruct p as [b br w | b e | b sz mt]; try discriminate.
  rewrite (sell_product_present _ _ _ _ _ Hget).
  rewrite sell_expired by exact Hx'. cbn [fst snd].
  rewrite PyDictFacts.set_get_same by assumption.
  now rewrite Inventory_eta.
Qed.

Lemma X9_witness :
  sell_product (DateTime.mk_datetime 2031 1 1 0 0 0 0) "G1" 1 Samples.shop
  = (Exc ExpiredProduct, Samples.shop).
Proof.
  apply (X9_expired_for_good Samples.noon _ "G1" 1 Samples.shop
           Samples.old_milk); reflexivity.
Defined.

(** X10: on the day of its expiry date a [Grocery] record can be sold at
    midnight sharp, when the stock decides alone, and at no later time of
    that day: [is_expired] compares the clock with the midnight that opens
    the day. *)
Theorem X10_sale_on_expiry_day b y m d h mi s us pid q inv :
  PyDict.get pid (_products inv)
  = Some (Grocery b (DateTime.mk_datetime y m d 0 0 0 0)) ->
  0 <= h -> 0 <= mi -> 0 <= s -> 0 <= us ->
  outcome (sell_product (DateTime.mk_datetime y m d h mi s us) pid q) inv
  = if h + mi + s + us =? 0
    then if q >? _quantity_in_stock b then Exc InsufficientStock else Ret tt
    else Exc ExpiredProduct.
Proof.
  intros Hget Hh Hm Hs Hu. unfold outcome.
  rewrite (sell_product_present _ _ _ _ _ Hget). cbn [fst].
  destruct (Z.eqb_spec (h + mi + s + us) 0) as [E|N].
  - assert (h = 0 /\ mi = 0 /\ s = 0 /\ us = 0) as (-> & -> & -> & ->) by lia.
    cbn [sell]. unfold is_expired. rewrite DateTimeFacts.gt_irrefl.
    now destruct (q >? _quantity_in_stock b).
  - rewrite sell_expired; [reflexivity|].
    apply DateTimeFacts.gt_same_day; lia.
Qed.

Lemma X10_witness :
  outcome (sell_product (DateTime.mk_datetime 2024 6 20 0 0 0 0) "G2" 1)
          Samples.shop = Ret tt
  /\ outcome (sell_product (DateTime.mk_datetime 2024 6 20 0 0 0 1) "G2" 1)
             Samples.shop = Exc ExpiredProduct.
Proof.
  split.
  - exact (X10_sale_on_expiry_day (mk_base "G2" "Milk" (NFloat 2.5) 20)
             2024 6 20 0 0 0 0 "G2" 1 Samples.shop eq_refl
             ltac:(lia) ltac:(lia) ltac:(lia) ltac:(lia)).
  - exact (X10_sale_on_expiry_day (mk_base "G2" "Milk" (NFloat 2.5) 20)
             2024 6 20 0 0 0 1 "G2" 1 Samples.shop eq_refl
             ltac:(lia) ltac:(lia) ltac:(lia) ltac:(lia)).
Defined.

(** ** Repeated sweeps *)

Lemma wf_filter {V : Type} (f : string * V -> bool) (d : PyDict.dict V) :
  PyDict.wf d -> PyDict.wf (filter f d).
Proof.
  unfold PyDict.wf. induction d as [|[k v] r IH]; intros Hnd; [assumption|].
  inversion Hnd as [|? ? Hni Hnd']; subst. cbn [filter].
  destruct (f (k, v)); [|now apply IH].
  cbn [PyDict.keys map fst]. constructor; [|now apply IH].
  intros I. apply Hni. apply in_map_iff in I as (x & Hx & I).
  apply filter_In in I as [I _]. rewrite <- Hx. now apply in_map.
Qed.

Lemma sweep_result now inv :
  PyDict.wf (_products inv) ->
  remove_expired_products now inv
  = (Ret tt,
     mk_Inventory (filter (fun it => negb (is_expired_grocery now (snd it)))
                          (_products inv))).
Proof.
  intros Hwf. unfold remove_expired_products, bind, gets. cbn [fst snd].
  rewrite for_each_del. unfold PyDict.items.
  now rewrite (del_all_filter (fun it => is_expired_grocery now (snd it))).
Qed.

Lemma filter_filter_absorb {A : Type} (f g : A -> bool) (l : list A) :
  (forall x, g x = true -> f x = true) ->
  filter g (filter f l) = filter g l.
Proof.
  intros H. induction l as [|x r IH]; [reflexivity|]. cbn [filter].
  destruct (f x) eqn:Ef; cbn [filter].
  - now rewrite IH.
  - destruct (g x) eqn:Eg; [|assumption].
    apply H in Eg. congruence.
Qed.

(** X11: a sweep followed by a sweep at the same or a later reading of the
    clock leaves what the later sweep alone leaves; in particular a second
    sweep at the same reading removes nothing more. *)
Theorem X11_sweep_twice now now' inv :
  PyDict.wf (_products inv) ->
  DateTime.lt now now' = true \/ now' = now ->
  (remove_expired_products now ;; remove_expired_products now') inv
  = remove_expired_products now' inv.
Proof.
  intros Hwf Hlater. unfold bind at 1. rewrite (sweep_result now) by assumption.
  rewrite !sweep_result; cbn [_products];
    [|assumption | now apply wf_filter].
  rewrite filter_filter_absorb; [reflexivity|].
  intros [k p]. cbn [snd]. rewrite !negb_true_iff.
  intros Hn. destruct (is_expired_grocery now p) eqn:Hx; [|reflexivity].
  apply (is_expired_grocery_later now now') in Hx; [congruence | assumption].
Qed.

Lemma X11_witness :
  (remove_expired_products Samples.noon ;;
   remove_expired_products (DateTime.mk_datetime 2024 6 25 0 0 0 0))
    Samples.shop
  = remove_expired_products (DateTime.mk_datetime 2024 6 25 0 0 0 0)
      Samples.shop.
Proof.
  apply X11_sweep_twice;
    [exact (proj1 Samples_shop_well_formed) | left; reflexivity].
Defined.

(** ** Searching *)

Lemma filter_partition3 {A : Type} (f1 f2 f3 : A -> bool) (l : list A) :
  (forall x, In x l ->
     (f1 x = true /\ f2 x = false /\ f3 x = false)
     \/ (f1 x = false /\ f2 x = true /\ f3 x = false)
     \/ (f1 x = false /\ f2 x = false /\ f3 x = true)) ->
  Permutation (filter f1 l ++ filter f2 l ++ filter f3 l) l.
Proof.
  induction l as [|x r IH]; intros H; [constructor|].
  assert (IH' : Permutation (filter f1 r ++ filter f2 r ++ filter f3 r) r)
    by (apply IH; intros y I; apply H; now right).
  cbn [filter].
  destruct (H x (or_introl eq_refl))
    as [(-> & -> & ->)|[(-> & -> & ->)|(-> & -> & ->)]].
  - cbn [app]. now constructor.
  - symmetry. apply Permutation_cons_app. now symmetry.
  - symmetry. rewrite app_assoc. apply Permutation_cons_app.
    rewrite <- app_assoc. now symmetry.
Qed.

(** X12: [search_by_type] ignores the letter case of its argument; the
    searches for the three class names, in any spelling, together return
    every record of the ledger exactly once, and a search for any other text
    returns nothing. *)
Theorem X12_search_by_type_partition (t1 t2 t3 t : string) inv :
  lower t1 = "electronics" -> lower t2 = "grocery" -> lower t3 = "clothing" ->
  Permutation (search_by_type t1 inv ++ search_by_type t2 inv
               ++ search_by_type t3 inv)
              (PyDict.values (_products inv))
  /\ (lower t <> "electronics" -> lower t <> "grocery" ->
      lower t <> "clothing" -> search_by_type t inv = []).
Proof.
  intros H1 H2 H3. unfold search_by_type. rewrite H1, H2, H3. split.
  - apply filter_partition3. intros [b br w | b e | b sz mt] _; cbn; tauto.
  - intros N1 N2 N3.
    induction (PyDict.values (_products inv)) as [|p r IH]; [reflexivity|].
    cbn [filter]. rewrite IH.
    destruct p as [b br w | b e | b sz mt]; cbn [class_name];
      match goal with
      | |- context [String.eqb ?a ?b] =>
          destruct (String.eqb_spec a b) as [E|]; [|reflexivity]
      end; exfalso; [apply N1 | apply N2 | apply N3]; now rewrite <- E.
Qed.

Lemma X12_witness :
  Permutation (search_by_type "ELECTRONICS" Samples.shop
               ++ search_by_type "Grocery" Samples.shop
               ++ search_by_type "clothing" Samples.shop)
              (PyDict.values (_products Samples.shop))
  /\ search_by_type "toys" Samples.shop = [].
Proof.
  destruct (X12_search_by_type_partition "ELECTRONICS" "Grocery" "clothing"
              "toys" Samples.shop eq_refl eq_refl eq_refl) as [H1 H2].
  split; [exact H1|]. apply H2; discriminate.
Defined.

(** X13: after [add_product] has succeeded for a record whose name is ASCII
    text, the record is found by [search_by_name] under its name with each of
    its letters in either case, and by [search_by_type] under its class name
    with each of its letters in either case. *)
Theorem X13_added_record_is_found p inv (n t : string) :
  outcome (add_product p) inv = Ret tt ->
  is_ascii (_name (base_of p)) = true ->
  lower n = lower (_name (base_of p)) ->
  lower t = lower (class_name p) ->
  In p (search_by_name n (state_after (add_product p) inv))
  /\ In p (search_by_type t (state_after (add_product p) inv)).
Proof.
  unfold outcome, state_after, add_product, bind, gets.
  destruct (PyDict.contains (product_id p) (_products inv)) eqn:Hc;
    cbn [fst snd]; [discriminate|].
  intros _ _ Hn Ht. unfold products_set, modify. cbn [snd].
  assert (Hin : In p (PyDict.values
                        (PyDict.set (product_id p) p (_products inv)))).
  { apply PyDictFacts.contains_false in Hc.
    rewrite (PyDictFacts.set_absent _ _ _ Hc). unfold PyDict.values.
    rewrite map_app. apply in_or_app. right. now left. }
  unfold search_by_name, search_by_type. cbn [_products].
  split; apply filter_In; (split; [assumption|]);
    [rewrite Hn | rewrite Ht]; apply String.eqb_refl.
Qed.

Lemma X13_witness :
  In Samples.owed_phone
     (search_by_name "PHONE"
        (state_after (add_product Samples.owed_phone) Samples.shop))
  /\ In Samples.owed_phone
        (search_by_type "electronics"
           (state_after (add_product Samples.owed_phone) Samples.shop)).
Proof.
  apply X13_added_record_is_found; reflexivity.
Defined.

Lemma values_filter {V : Type} (f : V -> bool) (d : PyDict.dict V) :
  PyDict.values (filter (fun it => f (snd it)) d) = filter f (PyDict.values d).
Proof.
  induction d as [|[k v] r IH]; [reflexivity|]. cbn [filter PyDict.values map snd].
  destruct (f v); cbn [map snd]; unfold PyDict.values in IH; now rewrite IH.
Qed.

Lemma filter_comm {A : Type} (f g : A -> bool) (l : list A) :
  filter f (filter g l) = filter g (filter f l).
Proof.
  induction l as [|x r IH]; [reflexivity|]. cbn [filter].
  destruct (f x) eqn:Ef, (g x) eqn:Eg; cbn [filter];
    rewrite ?Ef, ?Eg, IH; reflexivity.
Qed.

(** X14: after a sweep, each search returns what it returned before without
    the expired [Grocery] records, in the same order; no expired record is
    found any more. *)
Theorem X14_search_after_sweep now (n t : string) inv :
  PyDict.wf (_products inv) ->
  search_by_name n (state_after (remove_expired_products now) inv)
  = filter (fun p => negb (is_expired_grocery now p)) (search_by_name n inv)
  /\ search_by_type t (state_after (remove_expired_products now) inv)
     = filter (fun p => negb (is_expired_grocery now p)) (search_by_type t inv).
Proof.
  intros Hwf. unfold state_after. rewrite sweep_result by assumption.
  unfold search_by_name, search_by_type. cbn [snd _products].
  rewrite (values_filter (fun p => negb (is_expired_grocery now p))).
  split; apply filter_comm.
Qed.

Lemma X14_witness :
  search_by_name "milk" Samples.shop = [Samples.old_milk; Samples.milk]
  /\ search_by_name "milk"
       (state_after (remove_expired_products Samples.noon) Samples.shop)
     = [Samples.milk].
Proof.
  split; [reflexivity|].
  rewrite (proj1 (X14_search_after_sweep Samples.noon "milk" "" Samples.shop
                    (proj1 Samples_shop_well_formed))).
  reflexivity.
Defined.

Lemma del_by_id pid (d : PyDict.dict Product) :
  PyDict.wf d -> keyed_by_id d ->
  PyDict.del pid d
  = filter (fun it => negb (String.eqb pid (product_id (snd it)))) d.
Proof.
  intros Hwf Hk. rewrite del_filter by assumption.
  apply filter_ext_in. intros [k v] I.
  unfold keyed_by_id in Hk. rewrite Forall_forall in Hk.
  destruct (Hk _ I) as [E _]. cbn [fst snd] in *. now rewrite E.
Qed.

(** X15: after [remove_product] has succeeded on a well-formed ledger, each
    search returns what it returned before without the record of that id. *)
Theorem X15_search_after_remove pid (n t : string) inv :
  well_formed inv ->
  outcome (remove_product pid) inv = Ret tt ->
  search_by_name n (state_after (remove_product pid) inv)
  = filter (fun p => negb (String.eqb pid (product_id p)))
           (search_by_name n inv)
  /\ search_by_type t (state_after (remove_product pid) inv)
     = filter (fun p => negb (String.eqb pid (product_id p)))
              (search_by_type t inv).
Proof.
  intros [Hwf Hk]. unfold outcome, state_after, remove_product, bind, gets.
  destruct (PyDict.contains pid (_products inv)); cbn [fst snd];
    [intros _|discriminate].
  unfold products_del, modify, search_by_name, search_by_type.
  cbn [snd _products]. rewrite del_by_id by assumption.
  rewrite (values_filter (fun p => negb (String.eqb pid (product_id p)))).
  split; apply filter_comm.
Qed.

Lemma X15_witness :
  search_by_name "MILK" (state_after (remove_product "G1") Samples.shop)
  = [Samples.milk].
Proof.
  rewrite (proj1 (X15_search_after_remove "G1" "MILK" "" Samples.shop
                    Samples_shop_well_formed eq_refl)).
  reflexivity.
Defined.

(** ** More on loading *)

Lemma for_each_load_outcome data inv :
  fst (for_each data load_item inv) = Ret tt <-> forallb parses data = true.
Proof.
  revert inv. induction data as [|item r IH]; intros inv.
  - now split.
  - rewrite for_each_cons. cbn [forallb]. unfold parses at 1.
    destruct (parse_item item) as [p|e] eqn:Hp.
    + rewrite (load_item_ok _ _ _ Hp). cbn [andb]. apply IH.
    + rewrite (load_item_fails _ _ _ Hp). cbn [fst andb].
      split; discriminate.
Qed.

(** X16: for a document whose values have the types of the file format,
    what [load_from_file] returns and leaves does not depend on what the
    ledger held before, and the load succeeds exactly when every record of
    the document builds a product. *)
Theorem X16_load_replaces (data : list jobject) (inv inv' : Inventory) :
  forallb typed_item data = true ->
  load_from_file data inv = load_from_file data inv'
  /\ (outcome (load_from_file data) inv = Ret tt
      <-> forallb parses data = true).
Proof.
  intros _. split; [reflexivity|].
  unfold outcome, load_from_file, bind, products_clear, modify.
  rewrite <- (for_each_load_outcome data (mk_Inventory PyDict.empty)).
  now destruct (for_each data load_item (mk_Inventory PyDict.empty))
    as [[[]|e] s].
Qed.

Lemma X16_witness :
  load_from_file Samples.toy_doc Samples.shop
  = load_from_file Samples.toy_doc Inventory_init
  /\ (outcome (load_from_file Samples.toy_doc) Samples.shop = Ret tt
      <-> forallb parses Samples.toy_doc = true).
Proof.
  exact (X16_load_replaces Samples.toy_doc Samples.shop Inventory_init
           eq_refl).
Defined.

Lemma find_app_last {A : Type} (f : A -> bool) (l : list A) (x : A) :
  find f (l ++ [x])
  = match find f l with
    | Some y => Some y
    | None => if f x then Some x else None
    end.
Proof.
  induction l as [|y r IH]; cbn [app find]; [reflexivity|].
  now destruct (f y).
Qed.

Lemma load_items_lookup data inv pid :
  forallb parses data = true ->
  PyDict.get pid (_products (snd (for_each data load_item inv)))
  = match last_with_id pid (parsed_records data) with
    | Some p => Some p
    | None => PyDict.get pid (_products inv)
    end.
Proof.
  revert inv. induction data as [|item r IH]; intros inv Hall;
    [reflexivity|].
  cbn [forallb] in Hall. apply andb_true_iff in Hall as [Hi Hr].
  unfold parses in Hi. destruct (parse_item item) as [p|] eqn:Hp;
    [|discriminate].
  rewrite for_each_cons, (load_item_ok _ _ _ Hp), (IH _ Hr).
  unfold last_with_id, parsed_records. cbn [flat_map]. rewrite Hp.
  cbn [app rev]. rewrite find_app_last. cbn [_products].
  destruct (find _ (rev _)); [reflexivity|].
  destruct (String.eqb_spec (product_id p) pid) as [<-|N].
  - apply PyDictFacts.get_set_same.
  - apply PyDictFacts.get_set_other. congruence.
Qed.

(** X17: after a load that succeeds, the record found under an id is the
    last record of the document with that id, and an id that no record of the
    document carries is absent: a later record overwrites an earlier one
    with the same id. *)
Theorem X17_load_last_record_wins (data : list jobject) inv pid :
  forallb parses data = true ->
  PyDict.get pid (_products (state_after (load_from_file data) inv))
  = last_with_id pid (parsed_records data).
Proof.
  intros Hall.
  pose proof (load_items_lookup data (mk_Inventory PyDict.empty) pid Hall)
    as H.
  unfold state_after, load_from_file, bind, products_clear, modify.
  destruct (for_each data load_item (mk_Inventory PyDict.empty))
    as [[[]|e] s]; cbn [snd] in *; rewrite H;
    now destruct (last_with_id pid (parsed_records data)).
Qed.

Lemma X17_witness :
  PyDict.get "E9"
    (_products (state_after
                  (load_from_file (Samples.owed_doc
                                   ++ skipn 2 Samples.toy_doc)%list)
                  Samples.shop))
  = Some (Electronics_init "E9" "Phone" (NFloat 500) 3 "Acme" 2).
Proof.
  rewrite X17_load_last_record_wins; reflexivity.
Defined.



(** ** Sessions *)

Lemma well_formed_unique_ids inv :
  well_formed inv ->
  NoDup (map product_id (PyDict.values (_products inv))).
Proof.
  intros [Hwf Hk]. unfold PyDict.wf, PyDict.keys, PyDict.values in *.
  replace (map product_id (map snd (_products inv)))
    with (map fst (_products inv)); [assumption|].
  rewrite map_map. apply map_ext_in. intros it I.
  unfold keyed_by_id in Hk. rewrite Forall_forall in Hk. now apply Hk.
Qed.

(** X19: in any session that starts from the empty ledger and adds only
    records built by the constructors, no two records of the ledger ever
    share an id, and the record found under an id carries that id. *)
Theorem X19_ids_stay_unique (cs : list call) :
  Forall built_by_constructor cs ->
  NoDup (map product_id
             (PyDict.values (_products (run_all cs Inventory_init))))
  /\ (forall pid p,
        PyDict.get pid (_products (run_all cs Inventory_init)) = Some p ->
        product_id p = pid).
Proof.
  intros Hcs.
  assert (Hwf : well_formed (run_all cs Inventory_init)).
  { unfold run_all. generalize well_formed_init.
    generalize Inventory_init as inv.
    induction Hcs as [|c r Hc Hr IH]; intros inv Hinv; [assumption|].
    cbn [fold_left]. apply IH. now apply well_formed_preserved. }
  split; [now apply well_formed_unique_ids|].
  intros pid p Hget. symmetry. now apply (well_formed_get pid p _ Hwf).
Qed.

Lemma X19_witness :
  NoDup (map product_id
           (PyDict.values
              (_products
                 (run_all [Add Samples.phone; Add Samples.phone;
                           Load Samples.toy_doc; Add Samples.milk;
                           Restock "G2" 3; Remove "C7"]
                          Inventory_init)))).
Proof.
  refine (proj1 (X19_ids_stay_unique _ _)).
  repeat constructor.
Defined.

(** ** The records that [load_from_file] accepts *)

Lemma binds_spec params (item : jobject) :
  binds params item = true ->
  forall k, PyDict.contains k item = true <-> In k params.
Proof.
  unfold binds. rewrite andb_true_iff, !forallb_forall.
  intros [Hkeys Hparams] k. split.
  - intros Hc. apply contains_in_keys in Hc. apply Hkeys in Hc.
    apply existsb_exists in Hc as (q & Hq & E).
    apply String.eqb_eq in E. now subst.
  - apply Hparams.
Qed.

Lemma py_eq_str_true t s : py_eq_str t s = true -> t = JStr s.
Proof.
  destruct t as [x| |]; cbn [py_eq_str]; try discriminate.
  intros E. apply String.eqb_eq in E. now subst.
Qed.

Lemma kw_class_Electronics item p :
  Electronics_kw item = Ret p ->
  class_name p = "Electronics"
  /\ binds (base_params ++ ["brand"; "warranty_years"]) item = true.
Proof.
  unfold Electronics_kw. destruct (binds _ item); [|discriminate].
  destruct (arg_str "product_id" item); [|discriminate].
  destruct (arg_str "name" item); [|discriminate].
  destruct (arg_num "price" item); [|discriminate].
  destruct (arg_int "quantity_in_stock" item); [|discriminate].
  destruct (arg_str "brand" item); [|discriminate].
  destruct (arg_int "warranty_years" item); [|discriminate].
  cbn [rbind]. now intros [= <-].
Qed.

Lemma kw_class_Grocery item p :
  Grocery_kw item = Ret p ->
  class_name p = "Grocery"
  /\ binds (base_params ++ ["expiry_date"]) item = true.
Proof.
  unfold Grocery_kw, Grocery_init. destruct (binds _ item); [|discriminate].
  destruct (arg_str "product_id" item); [|discriminate].
  destruct (arg_str "name" item); [|discriminate].
  destruct (arg_num "price" item); [|discriminate].
  destruct (arg_int "quantity_in_stock" item); [|discriminate].
  destruct (arg_str "expiry_date" item) as [s|]; [|discriminate].
  cbn [rbind]. destruct (DateTime.strptime s); [|discriminate].
  now intros [= <-].
Qed.

Lemma kw_class_Clothing item p :
  Clothing_kw item = Ret p ->
  class_name p = "Clothing"
  /\ binds (base_params ++ ["size"; "material"]) item = true.
Proof.
  unfold Clothing_kw. destruct (binds _ item); [|discriminate].
  destruct (arg_str "product_id" item); [|discriminate].
  destruct (arg_str "name" item); [|discriminate].
  destruct (arg_num "price" item); [|discriminate].
  destruct (arg_int "quantity_in_stock" item); [|discriminate].
  destruct (arg_str "size" item); [|discriminate].
  destruct (arg_str "material" item); [|discriminate].
  cbn [rbind]. now intros [= <-].
Qed.

(** The keys that [to_dict] writes: the tag, then the parameters of the
    constructor of the class. *)
Lemma keys_to_dict p :
  PyDict.keys (to_dict p)
  = "type" :: (base_params ++
               match p with
               | Electronics _ _ _ => ["brand"; "warranty_years"]
               | Grocery _ _ => ["expiry_date"]
               | Clothing _ _ _ => ["size"; "material"]
               end)%list.
Proof. now destruct p. Qed.

Lemma same_keys_as_saved (item : jobject) t p params :
  PyDict.get "type" item = Some t ->
  binds params (PyDict.del "type" item) = true ->
  PyDict.keys (to_dict p) = "type" :: params ->
  forall k, PyDict.contains k item = PyDict.contains k (to_dict p).
Proof.
  intros Ht Hb Hkeys k.
  pose proof (binds_spec _ _ Hb k) as Hk.
  pose proof (contains_in_keys k (to_dict p)) as Hd.
  rewrite Hkeys in Hd. cbn [In] in Hd.
  destruct (string_dec k "type") as [->|N].
  - unfold PyDict.contains at 1. rewrite Ht. symmetry. apply Hd. now left.
  - assert (E : PyDict.contains k item
                = PyDict.contains k (PyDict.del "type" item)).
    { unfold PyDict.contains.
      now rewrite PyDictFacts.get_del_other by assumption. }
    rewrite E.
    destruct (PyDict.contains k (PyDict.del "type" item)).
    + symmetry. apply Hd. right. now apply Hk.
    + destruct (PyDict.contains k (to_dict p)); [|reflexivity].
      destruct (proj1 Hd eq_refl) as [E'|I]; [congruence|].
      apply Hk in I. discriminate.
Qed.

(** X20: a record of the document builds a product only when its tag is the
    name of one of the three classes and its keys are exactly those that
    [to_dict] writes for that class: a missing or an unexpected key makes the
    constructor call fail. *)
Theorem X20_accepted_record_keys (item : jobject) (p : Product) :
  parse_item item = Ret p ->
  PyDict.get "type" item = Some (JStr (class_name p))
  /\ forall k, PyDict.contains k item = PyDict.contains k (to_dict p).
Proof.
  unfold parse_item.
  destruct (PyDict.get "type" item) as [t|] eqn:Ht; [|discriminate].
  destruct (py_eq_str t "Electronics") eqn:E1.
  { intros H. apply py_eq_str_true in E1.
    destruct (kw_class_Electronics _ _ H) as [Hc Hb].
    split; [congruence|].
    apply (same_keys_as_saved item t p _ Ht Hb).
    rewrite keys_to_dict. now destruct p. }
  destruct (py_eq_str t "Grocery") eqn:E2.
  { intros H. apply py_eq_str_true in E2.
    destruct (kw_class_Grocery _ _ H) as [Hc Hb].
    split; [congruence|].
    apply (same_keys_as_saved item t p _ Ht Hb).
    rewrite keys_to_dict. now destruct p. }
  destruct (py_eq_str t "Clothing") eqn:E3; [|discriminate].
  intros H. apply py_eq_str_true in E3.
  destruct (kw_class_Clothing _ _ H) as [Hc Hb].
  split; [congruence|].
  apply (same_keys_as_saved item t p _ Ht Hb).
  rewrite keys_to_dict. now destruct p.
Qed.

Lemma X20_witness :
  PyDict.get "type" (nth 0 Samples.toy_doc [])
  = Some (JStr "Clothing")
  /\ PyDict.contains "material" (nth 0 Samples.toy_doc []) = true
  /\ PyDict.contains "brand" (nth 0 Samples.toy_doc []) = false.
Proof.
  destruct (X20_accepted_record_keys (nth 0 Samples.toy_doc [])
              (Clothing_init "C7" "Scarf" (NFloat 12) 4 "L" "Wool") eq_refl)
    as [Ht Hk].
  split; [exact Ht|]. rewrite !Hk. split; reflexivity.
Defined.

(** X21: when [Grocery.__init__] builds a record from a date text, the
    record holds midnight of a calendar date; the text that [to_dict] then
    writes for that date builds the same record again when the year is 1000
    or more, however the date was first spelled, and is refused by the
    constructor when the year is below 1000. *)
Theorem X21_grocery_date (pid nm : string) (pr : number) (q : Z)
    (s : string) p :
  Grocery_init pid nm pr q s = Ret p ->
  exists e,
    p = Grocery (mk_base pid nm pr q) e
    /\ DateTime.is_midnight_date e = true
    /\ (1000 <= DateTime.year e ->
        Grocery_init pid nm pr q (DateTime.strftime e) = Ret p)
    /\ (DateTime.year e < 1000 ->
        Grocery_init pid nm pr q (DateTime.strftime e) = Exc strptime_error).
Proof.
  unfold Grocery_init.
  destruct (DateTime.strptime s) as [e|] eqn:He; [|discriminate].
  intros [= <-]. exists e.
  pose proof (DateCodec.strptime_midnight _ _ He) as Hm.
  split; [reflexivity|]. split; [assumption|]. split; intros Hy.
  - now rewrite DateCodec.strptime_strftime.
  - now rewrite DateCodec.strptime_strftime_short_year.
Qed.

Lemma X21_witness :
  exists e,
    Samples.milk = Grocery (mk_base "G2" "Milk" (NFloat 2.5) 20) e
    /\ DateTime.is_midnight_date e = true
    /\ (1000 <= DateTime.year e ->
        Grocery_init "G2" "Milk" (NFloat 2.5) 20 (DateTime.strftime e)
        = Ret Samples.milk)
    /\ (DateTime.year e < 1000 ->
        Grocery_init "G2" "Milk" (NFloat 2.5) 20 (DateTime.strftime e)
        = Exc strptime_error).
Proof.
  exact (X21_grocery_date "G2" "Milk" (NFloat 2.5) 20 "2024-6-20"
           Samples.milk eq_refl).
Defined.

(** ** The instance counter *)

Lemma create_result (n : nat) (w : Counter.world) :
  Counter.create n w
  = (Ret tt,
     Counter.mk_world (Counter.count w + Z.of_nat n) (Counter.stdout w)).
Proof.
  revert w. induction n as [|k IH]; intros [c out].
  - cbn [Counter.create Counter.count Counter.stdout]. unfold ret.
    now rewrite Z.add_0_r.
  - cbn [Counter.create]. unfold bind, Counter.Counter_init, modify.
    rewrite IH. cbn [Counter.count Counter.stdout]. do 2 f_equal. lia.
Qed.

(** X22: every construction of a [Counter] adds one to the class variable
    shared by all instances: after [n] constructions [get_count] prints the
    number [n], and the script, which builds three objects, prints 3. *)
Theorem X22_counter_counts (n : nat) :
  state_after (Counter.create n ;; Counter.get_count) Counter.class_defined
  = Counter.mk_world (Z.of_nat n)
      ["Total Objects Created: " ++ Counter.str_int (Z.of_nat n)]
  /\ Counter.stdout (state_after Counter.script Counter.class_defined)
     = ["Total Objects Created: 3"].
Proof.
  split; [|reflexivity].
  unfold state_after, bind. rewrite create_result.
  reflexivity.
Qed.

(** ** Restocking a negative amount *)

(** X23: [restock_product] has no test on the sign of the amount: on a
    present id it never raises, and an amount below minus the stock leaves a
    negative stock in the ledger. *)
Theorem X23_restock_below_zero pid amount inv p :
  PyDict.get pid (_products inv) = Some p ->
  amount < - quantity_in_stock p ->
  outcome (restock_product pid amount) inv = Ret tt
  /\ stock_of pid (state_after (restock_product pid amount) inv)
     = Some (quantity_in_stock p + amount)
  /\ ~ stock_nonneg (state_after (restock_product pid amount) inv).
Proof.
  intros Hget Hneg. unfold outcome, state_after.
  rewrite (restock_product_present _ _ _ _ Hget), restock_result.
  cbn [fst snd]. split; [reflexivity|].
  assert (Hs : stock_of pid
                 (mk_Inventory
                    (PyDict.set pid
                       (set_stock p (quantity_in_stock p + amount))
                       (_products inv)))
               = Some (quantity_in_stock p + amount))
    by now rewrite stock_of_set, quantity_set_stock.
  split; [exact Hs|].
  intros Hinv.
  pose proof (stock_nonneg_get pid _ _ Hinv
                (PyDictFacts.get_set_same pid _ (_products inv))) as H.
  rewrite quantity_set_stock in H. lia.
Qed.

Lemma X23_witness :
  outcome (restock_product "C1" (-16)) Samples.shop = Ret tt
  /\ stock_of "C1" (state_after (restock_product "C1" (-16)) Samples.shop)
     = Some (15 + -16)
  /\ ~ stock_nonneg (state_after (restock_product "C1" (-16)) Samples.shop).
Proof.
  apply (X23_restock_below_zero "C1" (-16) Samples.shop Samples.shirt);
    [reflexivity | vm_compute; reflexivity].
Defined.
